(** * send_call.py: a shallow embedding of [send_call_transcript]

    The program builds a call report (a Python dict), posts it once to a
    fixed webhook with [requests.post] and prints what happened.  Its
    effects are two reads of the wall clock, one HTTP request, and lines
    written to standard output; a failure of the request is caught by a
    [try]/[except requests.exceptions.RequestException].

    The development is organised as follows.
    - [PyText]: decimal rendering of integers ([str(int)], [%0wd]) and the
      reading of decimal fields.
    - [Calendar]: the proleptic Gregorian date arithmetic of [datetime].
    - [PyExc]: exception classes and the outcome of a call that may raise.
    - [DateTime]: [datetime] values, [fromtimestamp], [timestamp] and
      [isoformat].
    - [PyValue]: the Python values that occur (the payload dict, a decoded
      JSON body) and their [str]/[repr].
    - [Effects]: the state-and-exception monad in which the function runs.
    - the function itself, [send_call_transcript].
    - the vocabulary of the properties ([Iso8601], the clock assumption,
      sample surroundings), then the facts and the claims.

    The libraries the program calls ([datetime], [pytz], [requests]) are
    modelled by what they do for this program; what [requests.post] meets on
    the network and what [response.json()] makes of a body are given by the
    surroundings of a run. *)

From Stdlib Require Import ZArith List String Ascii Bool Lia.
Import ListNotations.

Local Open Scope string_scope.
Local Open Scope Z_scope.

(* ------------------------------------------------------------------ *)
(** ** Text: decimal digits *)

Module PyText.

(** The character of a decimal digit [0..9]. *)
Definition digit_char (d : Z) : ascii := ascii_of_nat (48 + Z.to_nat d).

Definition is_digit (c : ascii) : bool :=
  let n := Z.of_nat (nat_of_ascii c) in (48 <=? n) && (n <=? 57).

Definition digit_val (c : ascii) : Z := Z.of_nat (nat_of_ascii c) - 48.

(** The decimal digits of a non-negative integer, most significant first.
    [fuel] bounds the number of digits produced. *)
Fixpoint digits_fuel (fuel : nat) (n : Z) : string :=
  match fuel with
  | O => ""
  | S f =>
      if n <? 10 then String (digit_char n) ""
      else digits_fuel f (n / 10) ++ String (digit_char (n mod 10)) ""
  end.

(** A number below [2^k] has at most [k] decimal digits (and at least one). *)
Definition digits (n : Z) : string := digits_fuel (S (Z.to_nat (Z.log2 n))) n.

(** Python's [str(n)] for an [int], which is also what an f-string
    replacement field [{n}] produces. *)
Definition str_int (n : Z) : string :=
  if n <? 0 then "-" ++ digits (- n) else digits n.

Fixpoint zeros (k : nat) : string :=
  match k with
  | O => ""
  | S k' => String "0" (zeros k')
  end.

(** [s.zfill(w)] for a string of digits. *)
Definition zfill (w : nat) (s : string) : string :=
  zeros (w - String.length s) ++ s.

(** Python's ["%0wd" % n]: at least [w] characters, zero padded after the
    sign. *)
Definition fmt_d (w : nat) (n : Z) : string :=
  if n <? 0 then "-" ++ zfill (w - 1) (digits (- n)) else zfill w (digits n).

(** Reading: every character a digit, and at least one of them. *)
Fixpoint all_digits (s : string) : bool :=
  match s with
  | "" => true
  | String c s' => is_digit c && all_digits s'
  end.

Definition is_number (s : string) : bool :=
  match s with
  | "" => false
  | _ => all_digits s
  end.

(** The value of a string of digits, read left to right. *)
Fixpoint digits_value_from (acc : Z) (s : string) : Z :=
  match s with
  | "" => acc
  | String c s' => digits_value_from (acc * 10 + digit_val c) s'
  end.

Definition digits_value (s : string) : Z := digits_value_from 0 s.

(** A non-negative decimal number: [Some] of its value, or [None] when the
    string is empty or holds a character that is not a digit. *)
Definition parse_number (s : string) : option Z :=
  if is_number s then Some (digits_value s) else None.

(** [take k s] and [drop k s] split a string at position [k]. *)
Fixpoint take (k : nat) (s : string) : string :=
  match k, s with
  | S k', String c s' => String c (take k' s')
  | _, _ => ""
  end.

Fixpoint drop (k : nat) (s : string) : string :=
  match k, s with
  | S k', String _ s' => drop k' s'
  | _, _ => s
  end.

(** [p] occurs in [s] starting at its first character. *)
Fixpoint starts_with (p s : string) : bool :=
  match p, s with
  | "", _ => true
  | String a p', String b s' => Ascii.eqb a b && starts_with p' s'
  | String _ _, "" => false
  end.

(** [p in s] of Python: [p] occurs somewhere in [s]. *)
Fixpoint contains (p s : string) : bool :=
  starts_with p s ||
  match s with
  | "" => false
  | String _ s' => contains p s'
  end.

End PyText.

(* ------------------------------------------------------------------ *)
(** ** Calendar: the date arithmetic of [datetime]

    The functions follow the ones of the [datetime] module, name by name:
    ordinals count days, day 1 being 1 January of year 1. *)

Module Calendar.

Definition _is_leap (year : Z) : bool :=
  (year mod 4 =? 0) && (negb (year mod 100 =? 0) || (year mod 400 =? 0)).

Definition _days_before_year (year : Z) : Z :=
  let y := year - 1 in
  y * 365 + y / 4 - y / 100 + y / 400.

(** [_DAYS_IN_MONTH[month]], with February as in a common year. *)
Definition _DAYS_IN_MONTH (month : Z) : Z :=
  match month with
  | 1 => 31 | 2 => 28 | 3 => 31 | 4 => 30 | 5 => 31 | 6 => 30
  | 7 => 31 | 8 => 31 | 9 => 30 | 10 => 31 | 11 => 30 | 12 => 31
  | _ => -1
  end.

(** [_DAYS_BEFORE_MONTH[month]]: the running sums of [_DAYS_IN_MONTH]. *)
Definition _DAYS_BEFORE_MONTH (month : Z) : Z :=
  match month with
  | 1 => 0 | 2 => 31 | 3 => 59 | 4 => 90 | 5 => 120 | 6 => 151
  | 7 => 181 | 8 => 212 | 9 => 243 | 10 => 273 | 11 => 304 | 12 => 334
  | _ => -1
  end.

Definition _days_in_month (year month : Z) : Z :=
  if (month =? 2) && _is_leap year then 29 else _DAYS_IN_MONTH month.

Definition _days_before_month (year month : Z) : Z :=
  _DAYS_BEFORE_MONTH month + (if (2 <? month) && _is_leap year then 1 else 0).

Definition _ymd2ord (year month day : Z) : Z :=
  _days_before_year year + _days_before_month year month + day.

Definition _DI400Y : Z := 146097.
Definition _DI100Y : Z := 36524.
Definition _DI4Y : Z := 1461.

(** The date of ordinal [n], as (year, month, day). *)
Definition _ord2ymd (n : Z) : Z * Z * Z :=
  let n := n - 1 in
  let n400 := n / _DI400Y in
  let n := n mod _DI400Y in
  let year := n400 * 400 + 1 in
  let n100 := n / _DI100Y in
  let n := n mod _DI100Y in
  let n4 := n / _DI4Y in
  let n := n mod _DI4Y in
  let n1 := n / 365 in
  let n := n mod 365 in
  let year := year + (n100 * 100 + n4 * 4 + n1) in
  if (n1 =? 4) || (n100 =? 4) then (year - 1, 12, 31)
  else
    let leapyear := (n1 =? 3) && (negb (n4 =? 24) || (n100 =? 3)) in
    let month := Z.shiftr (n + 50) 5 in
    let preceding :=
      _DAYS_BEFORE_MONTH month + (if (2 <? month) && leapyear then 1 else 0) in
    if n <? preceding then
      let month := month - 1 in
      let preceding :=
        preceding
        - (_DAYS_IN_MONTH month + (if (month =? 2) && leapyear then 1 else 0)) in
      (year, month, n - preceding + 1)
    else (year, month, n - preceding + 1).

(** The ordinal of 1 January 1970 and the largest ordinal (31 December
    9999). *)
Definition EPOCH_ORDINAL : Z := 719163.
Definition _MAXORDINAL : Z := 3652059.

End Calendar.

(* ------------------------------------------------------------------ *)
(** ** Exceptions *)

Module PyExc.

(** The exception classes that matter here: the hierarchy of
    [requests.exceptions] under [RequestException], and classes outside
    it. *)
Inductive exc_class : Type :=
  | RequestException
  | HTTPError
  | ConnectionError
  | ProxyError
  | SSLError
  | Timeout
  | ConnectTimeout
  | ReadTimeout
  | TooManyRedirects
  | InvalidURL
  | ChunkedEncodingError
  | ContentDecodingError
  | InvalidJSONError
  | RequestsJSONDecodeError   (* requests.exceptions.JSONDecodeError *)
  | ValueError
  | JSONDecodeError           (* json.JSONDecodeError, a ValueError *)
  | OverflowError
  | OSError
  | KeyboardInterrupt.

(** [issubclass(c, requests.exceptions.RequestException)]. *)
Definition is_RequestException (c : exc_class) : bool :=
  match c with
  | RequestException | HTTPError | ConnectionError | ProxyError | SSLError
  | Timeout | ConnectTimeout | ReadTimeout | TooManyRedirects | InvalidURL
  | ChunkedEncodingError | ContentDecodingError | InvalidJSONError
  | RequestsJSONDecodeError => true
  | ValueError | JSONDecodeError | OverflowError | OSError
  | KeyboardInterrupt => false
  end.

(** A raised exception: its class and the text [str(e)] gives. *)
Record exn : Type := { exc_type : exc_class; exc_str : string }.

(** The outcome of a computation that may raise. *)
Inductive result (A : Type) : Type :=
  | Returned (a : A)
  | Raised (e : exn).

Arguments Returned {A} a.
Arguments Raised {A} e.

End PyExc.

(* ------------------------------------------------------------------ *)
(** ** [datetime] values *)

Module DateTime.
Import PyText Calendar PyExc.

(** A time zone as [datetime] sees it here: a fixed offset from UTC, in
    seconds east. *)
Record tzinfo : Type := { utcoffset : Z }.

(** [pytz.timezone('Asia/Kolkata')].  The zone is given by its rule in
    force since 15 October 1945, UTC+05:30 with no daylight saving; the
    older offsets of the time zone database are not represented, so the
    value stands for the zone at clock readings from that date on. *)
Definition Asia_Kolkata : tzinfo := {| utcoffset := 5 * 3600 + 30 * 60 |}.

Record datetime : Type := {
  year : Z;
  month : Z;
  day : Z;
  hour : Z;
  minute : Z;
  second : Z;
  microsecond : Z;
  tz : option tzinfo
}.

Definition US_PER_SECOND : Z := 1000000.
Definition US_PER_DAY : Z := 86400 * US_PER_SECOND.

(** The fields of the moment [us] microseconds after 1970-01-01T00:00:00 on
    the same time line, tagged with [z]; [None] when the year would leave
    the years 1 to 9999, where the [datetime] constructor refuses. *)
Definition of_epoch_us (us : Z) (z : option tzinfo) : option datetime :=
  let ord := EPOCH_ORDINAL + us / US_PER_DAY in
  let r := us mod US_PER_DAY in
  if (1 <=? ord) && (ord <=? _MAXORDINAL) then
    let '(y, m, d) := _ord2ymd ord in
    Some {| year := y; month := m; day := d;
            hour := r / (3600 * US_PER_SECOND);
            minute := r / (60 * US_PER_SECOND) mod 60;
            second := r / US_PER_SECOND mod 60;
            microsecond := r mod US_PER_SECOND;
            tz := z |}
  else None.

(** The inverse reading: microseconds between 1970-01-01T00:00:00 and the
    fields of [d], on the time line of the fields. *)
Definition to_epoch_us (d : datetime) : Z :=
  (((_ymd2ord (year d) (month d) (day d) - EPOCH_ORDINAL) * 86400
    + hour d * 3600 + minute d * 60 + second d) * US_PER_SECOND)
  + microsecond d.

(** [datetime.fromtimestamp(t, tz)] for the POSIX time [t], counted in
    microseconds.  With a zone the UTC fields are built first and the zone's
    [fromutc] then shifts them by its offset; without one the fields are the
    local time of the machine, whose zone is [local_offset] seconds east of
    UTC. *)
Definition fromtimestamp (local_offset : Z) (t : Z) (z : option tzinfo)
  : result datetime :=
  match z with
  | None =>
      match of_epoch_us (t + local_offset * US_PER_SECOND) None with
      | Some d => Returned d
      | None =>
          Raised {| exc_type := ValueError; exc_str := "year is out of range" |}
      end
  | Some zone =>
      match of_epoch_us t None with
      | None =>
          Raised {| exc_type := ValueError; exc_str := "year is out of range" |}
      | Some _ =>
          match of_epoch_us (t + utcoffset zone * US_PER_SECOND) (Some zone) with
          | Some d => Returned d
          | None =>
              Raised {| exc_type := OverflowError;
                        exc_str := "date value out of range" |}
          end
      end
  end.

(** [d.timestamp()]: the POSIX time of [d].  Python returns a float of
    seconds, the double nearest to seconds + microseconds / 10^6; the model
    keeps the exact count of microseconds.  The two agree on the whole
    second, which is all the program uses, for times up to [2^34] seconds
    after the epoch.  A naive [d] is read as local time. *)
Definition timestamp (local_offset : Z) (d : datetime) : Z :=
  match tz d with
  | None => to_epoch_us d - local_offset * US_PER_SECOND
  | Some zone => to_epoch_us d - utcoffset zone * US_PER_SECOND
  end.

(** [int(x)] for seconds kept in microseconds: truncation toward zero. *)
Definition int_of_seconds (x : Z) : Z := Z.quot x US_PER_SECOND.

Definition _format_time (hh mm ss us : Z) : string :=
  fmt_d 2 hh ++ ":" ++ fmt_d 2 mm ++ ":" ++ fmt_d 2 ss
  ++ (if us =? 0 then "" else "." ++ fmt_d 6 us).

Definition _format_offset (off : option Z) : string :=
  match off with
  | None => ""
  | Some o =>
      let sign := if o <? 0 then "-" else "+" in
      let a := Z.abs o in
      let hh := a / 3600 in
      let mm := a mod 3600 / 60 in
      let ss := a mod 60 in
      sign ++ fmt_d 2 hh ++ ":" ++ fmt_d 2 mm
      ++ (if ss =? 0 then "" else ":" ++ fmt_d 2 ss)
  end.

(** [d.isoformat()] with the default separator and [timespec='auto']. *)
Definition isoformat (d : datetime) : string :=
  fmt_d 4 (year d) ++ "-" ++ fmt_d 2 (month d) ++ "-" ++ fmt_d 2 (day d)
  ++ "T" ++ _format_time (hour d) (minute d) (second d) (microsecond d)
  ++ _format_offset (option_map utcoffset (tz d)).

End DateTime.

(* ------------------------------------------------------------------ *)
(** ** Python values *)

Module PyValue.
Import PyText.

(** The values that occur: the payload is a dict of strings and of one
    nested dict, and a decoded JSON body is any JSON value.  A dict keeps its
    items in insertion order; its keys are strings, as JSON and the payload
    have them.  A float carries the text [repr] prints for it. *)
#[local] Set Warnings "-register-all".
Inductive pyvalue : Type :=
  | PyNone
  | PyBool (b : bool)
  | PyInt (n : Z)
  | PyFloat (shown : string)
  | PyStr (s : string)
  | PyList (items : list pyvalue)
  | PyDict (items : list (string * pyvalue)).

(** [d[k]] on a dict, [None] standing for [KeyError] and for a value that is
    not a dict. *)
Fixpoint assoc (k : string) (items : list (string * pyvalue)) : option pyvalue :=
  match items with
  | [] => None
  | (k', v) :: rest => if String.eqb k k' then Some v else assoc k rest
  end.

Definition dict_get (k : string) (v : pyvalue) : option pyvalue :=
  match v with
  | PyDict items => assoc k items
  | _ => None
  end.

Definition quote : ascii := "039".
Definition dquote : ascii := "034".
Definition backslash : ascii := "092".
Definition newline : string := String "010" "".

Definition hex_char (d : nat) : ascii :=
  if Nat.ltb d 10 then ascii_of_nat (48 + d) else ascii_of_nat (87 + d).

Fixpoint occurs (c : ascii) (s : string) : bool :=
  match s with
  | "" => false
  | String a s' => Ascii.eqb a c || occurs c s'
  end.

(** One character of a string inside [repr], [q] being the quote chosen.
    Bytes from 128 on are copied: the string is read as the UTF-8 text of
    printable characters. *)
Definition repr_char (q c : ascii) : string :=
  let n := nat_of_ascii c in
  if Ascii.eqb c q || Ascii.eqb c backslash then String backslash (String c "")
  else if Nat.eqb n 9 then String backslash "t"
  else if Nat.eqb n 10 then String backslash "n"
  else if Nat.eqb n 13 then String backslash "r"
  else if Nat.ltb n 32 || Nat.eqb n 127 then
    String backslash
      (String "x" (String (hex_char (Nat.div n 16)) (String (hex_char (Nat.modulo n 16)) "")))
  else String c "".

Fixpoint repr_chars (q : ascii) (s : string) : string :=
  match s with
  | "" => ""
  | String c s' => repr_char q c ++ repr_chars q s'
  end.

(** [repr(s)] for a [str]: single quotes, unless the text holds a single
    quote and no double quote. *)
Definition repr_str (s : string) : string :=
  let q := if occurs quote s && negb (occurs dquote s) then dquote else quote in
  String q (repr_chars q s ++ String q "").

(** [repr(v)]. *)
Fixpoint repr (v : pyvalue) : string :=
  match v with
  | PyNone => "None"
  | PyBool true => "True"
  | PyBool false => "False"
  | PyInt n => str_int n
  | PyFloat shown => shown
  | PyStr s => repr_str s
  | PyList items =>
      "[" ++
      (fix elems (l : list pyvalue) : string :=
         match l with
         | [] => ""
         | x :: rest =>
             match rest with
             | [] => repr x
             | _ :: _ => repr x ++ ", " ++ elems rest
             end
         end) items
      ++ "]"
  | PyDict items =>
      "{" ++
      (fix pairs (l : list (string * pyvalue)) : string :=
         match l with
         | [] => ""
         | (k, x) :: rest =>
             match rest with
             | [] => repr_str k ++ ": " ++ repr x
             | _ :: _ => repr_str k ++ ": " ++ repr x ++ ", " ++ pairs rest
             end
         end) items
      ++ "}"
  end.

(** [str(v)], which [print] applies to each argument: a [str] is itself,
    anything else is its [repr]. *)
Definition py_str (v : pyvalue) : string :=
  match v with
  | PyStr s => s
  | _ => repr v
  end.

End PyValue.

(* ------------------------------------------------------------------ *)
(** ** Effects: clock, HTTP transport, standard output, exceptions *)

Module Effects.
Import PyText PyExc DateTime PyValue.

(** A call [requests.post(url, json=..., headers=...)], as the arguments the
    library receives; it encodes [json] as the body of the request. *)
Record Request : Type := {
  method : string;
  url : string;
  headers : list (string * string);
  json : pyvalue
}.

(** A response: its status, its body as text, and what [response.json()]
    does with that body (the decoded value, or the exception raised). *)
Record Response : Type := {
  status_code : Z;
  text : string;
  json_body : result pyvalue
}.

(** What surrounds the program: the wall clock (the POSIX time, in
    microseconds, that the k-th reading yields), the offset of the machine's
    local zone in seconds, and the transport (what the k-th request meets: a
    response, or an exception raised by [requests.post]). *)
Record Env : Type := {
  wall_clock : nat -> Z;
  local_offset : Z;
  transport : nat -> Request -> result Response
}.

(** What the program changes: how often the clock was read, the requests
    issued so far, the text written to standard output. *)
Record World : Type := {
  clock_reads : nat;
  requests_sent : list Request;
  stdout : string
}.

Definition M (A : Type) : Type := Env -> World -> result A * World.

Definition ret {A : Type} (a : A) : M A := fun _ w => (Returned a, w).

Definition bind {A B : Type} (c : M A) (k : A -> M B) : M B :=
  fun env w =>
    match c env w with
    | (Returned a, w') => k a env w'
    | (Raised e, w') => (Raised e, w')
    end.

Definition lift {A : Type} (r : result A) : M A := fun _ w => (r, w).

(** [try: body  except <class> as e: handler e]. *)
Definition try_except {A : Type} (body : M A) (catches : exc_class -> bool)
  (handler : exn -> M A) : M A :=
  fun env w =>
    match body env w with
    | (Returned a, w') => (Returned a, w')
    | (Raised e, w') =>
        if catches (exc_type e) then handler e env w' else (Raised e, w')
    end.

(** One reading of the wall clock. *)
Definition time_time : M Z :=
  fun env w =>
    (Returned (wall_clock env (clock_reads w)),
     {| clock_reads := S (clock_reads w);
        requests_sent := requests_sent w;
        stdout := stdout w |}).

(** [datetime.now(tz)]. *)
Definition datetime_now (z : option tzinfo) : M datetime :=
  bind time_time (fun t env w => (fromtimestamp (local_offset env) t z, w)).

(** [d.timestamp()]; a naive [d] is read in the machine's local zone. *)
Definition datetime_timestamp (d : datetime) : M Z :=
  fun env w => (Returned (timestamp (local_offset env) d), w).

(** [requests.post(url, json=payload, headers=headers)]: the request is
    issued, and the transport answers it or raises. *)
Definition requests_post (u : string) (payload : pyvalue)
  (hs : list (string * string)) : M Response :=
  fun env w =>
    let req := {| method := "POST"; url := u; headers := hs; json := payload |} in
    (transport env (List.length (requests_sent w)) req,
     {| clock_reads := clock_reads w;
        requests_sent := requests_sent w ++ [req];
        stdout := stdout w |}).

(** [response.json()]. *)
Definition response_json (r : Response) : M pyvalue := lift (json_body r).

Fixpoint join_space (args : list string) : string :=
  match args with
  | [] => ""
  | a :: rest =>
      match rest with
      | [] => a
      | _ :: _ => a ++ " " ++ join_space rest
      end
  end.

(** [print(a1, ..., an)] with arguments already turned into text: joined by
    one space, ended by a newline. *)
Definition print (args : list string) : M unit :=
  fun _ w =>
    (Returned tt,
     {| clock_reads := clock_reads w;
        requests_sent := requests_sent w;
        stdout := stdout w ++ join_space args ++ newline |}).

End Effects.

Declare Scope py_scope.
Delimit Scope py_scope with py.
Notation "x <- c ;; k" := (Effects.bind c (fun x => k))
  (at level 61, c at next level, right associativity) : py_scope.
Notation "c ;;; k" := (Effects.bind c (fun _ => k))
  (at level 61, right associativity) : py_scope.

(* ------------------------------------------------------------------ *)
(** ** The program *)

Import PyText PyExc DateTime PyValue Effects.

(** [send_call_transcript(transcript, caller_name, caller_phone)]. *)
Definition send_call_transcript (transcript caller_name caller_phone : string)
  : M unit :=
  (let url := "http://localhost:3000/webhook" in
   let ist := Asia_Kolkata in
   now_ist <- datetime_now (Some ist) ;;
   let current_time := isoformat now_ist in
   now_local <- datetime_now None ;;
   seconds <- datetime_timestamp now_local ;;
   let payload :=
     PyDict
       [ ("id", PyStr ("call_" ++ str_int (int_of_seconds seconds)));
         ("timestamp", PyStr current_time);
         ("transcript", PyStr transcript);
         ("caller",
          PyDict [ ("name", PyStr caller_name); ("phone", PyStr caller_phone) ]) ]
   in
   let headers := [ ("Content-Type", "application/json") ] in
   try_except
     (response <- requests_post url payload headers ;;
      if status_code response =? 200 then
        print [ "Call transcript sent successfully!" ] ;;;
        body <- response_json response ;;
        print [ "Response:"; py_str body ]
      else
        print [ "Error: Server returned status code "
                ++ str_int (status_code response) ] ;;;
        print [ "Response:"; text response ])
     is_RequestException
     (fun e => print [ "Error sending request: " ++ exc_str e ]))%py.

(** The statements below the function, run when the module is loaded with
    [__name__] bound to [name]: the example call is made when the file is run
    as a script, and nothing is done when it is imported.  The transcript is
    the triple-quoted literal of the source, whose first two lines end in a
    space and whose continuation lines keep their four spaces of
    indentation. *)
Definition script (name : string) : M unit :=
  if String.eqb name "__main__" then
    let transcript :=
      "Hi, I'm calling about the new JioFiber Gaming Plus plan. " ++ newline
      ++ "    I've been experiencing some latency issues while playing online games. "
      ++ newline
      ++ "    My connection speed is good but the ping seems high." in
    let caller_name := "Arjun Kumar" in
    let caller_phone := "+91-9876543210" in
    send_call_transcript transcript caller_name caller_phone
  else ret tt.

(* ------------------------------------------------------------------ *)
(** ** Vocabulary of the properties *)

(** *** ISO 8601 date-times

    A reader for the extended format of a complete date and time with a
    numeric offset, [YYYY-MM-DDThh:mm:ss[.ffffff](+|-)hh:mm]: the fields have
    their fixed widths, the month, the day of that month, the hour, minute
    and second are in range, and nothing follows the offset. *)

Module Iso8601.
Import Calendar.

Record t : Type := {
  iso_year : Z;
  iso_month : Z;
  iso_day : Z;
  iso_hour : Z;
  iso_minute : Z;
  iso_second : Z;
  iso_microsecond : Z;
  iso_offset : Z          (* seconds east of UTC *)
}.

(** Exactly [w] digits, then the rest. *)
Definition read_digits (w : nat) (s : string) : option (Z * string) :=
  let f := take w s in
  if Nat.eqb (String.length f) w && all_digits f
  then Some (digits_value f, drop w s)
  else None.

Definition read_char (c : ascii) (s : string) : option string :=
  match s with
  | String a s' => if Ascii.eqb a c then Some s' else None
  | "" => None
  end.

(** The optional fraction of a second: a dot and six digits. *)
Definition read_fraction (s : string) : option (Z * string) :=
  match read_char "." s with
  | Some s' => read_digits 6 s'
  | None => Some (0, s)
  end.

Definition read_sign (s : string) : option (Z * string) :=
  match s with
  | String "+" s' => Some (1, s')
  | String "-" s' => Some (-1, s')
  | _ => None
  end.

Definition in_ranges (v : t) : bool :=
  (1 <=? iso_month v) && (iso_month v <=? 12)
  && (1 <=? iso_day v) && (iso_day v <=? _days_in_month (iso_year v) (iso_month v))
  && (iso_hour v <=? 23) && (iso_minute v <=? 59) && (iso_second v <=? 59)
  && (Z.abs (iso_offset v) <? 86400).

Definition parse (s : string) : option t :=
  match read_digits 4 s with None => None | Some (y, s) =>
  match read_char "-" s with None => None | Some s =>
  match read_digits 2 s with None => None | Some (mo, s) =>
  match read_char "-" s with None => None | Some s =>
  match read_digits 2 s with None => None | Some (d, s) =>
  match read_char "T" s with None => None | Some s =>
  match read_digits 2 s with None => None | Some (hh, s) =>
  match read_char ":" s with None => None | Some s =>
  match read_digits 2 s with None => None | Some (mi, s) =>
  match read_char ":" s with None => None | Some s =>
  match read_digits 2 s with None => None | Some (ss, s) =>
  match read_fraction s with None => None | Some (us, s) =>
  match read_sign s with None => None | Some (sg, s) =>
  match read_digits 2 s with None => None | Some (oh, s) =>
  match read_char ":" s with None => None | Some s =>
  match read_digits 2 s with None => None | Some (om, s) =>
  match s with
  | "" =>
      let v := {| iso_year := y; iso_month := mo; iso_day := d;
                  iso_hour := hh; iso_minute := mi; iso_second := ss;
                  iso_microsecond := us;
                  iso_offset := sg * (oh * 3600 + om * 60) |} in
      if in_ranges v && (om <=? 59) then Some v else None
  | _ => None
  end end end end end end end end end end end end end end end end end.

(** The moment a date-time denotes, as POSIX time in microseconds. *)
Definition instant (v : t) : Z :=
  ((_ymd2ord (iso_year v) (iso_month v) (iso_day v) - EPOCH_ORDINAL) * 86400
   + iso_hour v * 3600 + iso_minute v * 60 + iso_second v - iso_offset v)
  * 1000000
  + iso_microsecond v.

End Iso8601.

(** *** Identifiers [call_<digits>] *)

(** The text matches [call_<digits>]: the prefix, then one digit or more and
    nothing else. *)
Definition is_call_id (s : string) : bool :=
  starts_with "call_" s && is_number (drop 5 s).

(** The number after the prefix. *)
Definition call_id_number (s : string) : option Z :=
  if starts_with "call_" s then parse_number (drop 5 s) else None.

(** *** Runs *)

(** The k-th clock reading that a run started in world [w] takes. *)
Definition reading (env : Env) (w : World) (k : nat) : Z :=
  wall_clock env (clock_reads w + k).

(** The end of the clock's range: [2^34] seconds after the epoch (in the
    year 2514).  Up to there the double that [timestamp()] returns for a
    reading of [s] seconds and some microseconds is still below [s + 1], so
    that [int] of it is [s]; the range lies well inside the years 1 to 9999
    that [datetime] holds. *)
Definition CLOCK_END : Z := 2 ^ 34 * US_PER_SECOND.

Definition clock_in_range (t : Z) : Prop := 0 <= t < CLOCK_END.

(** The clock assumption of the properties: the two readings of a run are
    at or after the epoch and before [CLOCK_END], and the machine's zone is
    less than a day from UTC. *)
Definition clock_ok (env : Env) (w : World) : Prop :=
  -86400 < local_offset env < 86400
  /\ clock_in_range (reading env w 0)
  /\ clock_in_range (reading env w 1).

(** The transport meets the request of the run with [o]: whatever request
    the run adds to the ones sent before, the transport returns the response
    or raises the exception that [o] is. *)
Definition answered (env : Env) (w : World)
  (transcript caller_name caller_phone : string) (o : result Response) : Prop :=
  forall req,
    requests_sent (snd (send_call_transcript transcript caller_name caller_phone env w))
    = (requests_sent w ++ [req])%list ->
    transport env (List.length (requests_sent w)) req = o.

(** The whole seconds of a POSIX time in microseconds. *)
Definition epoch_second (t : Z) : Z := t / US_PER_SECOND.

(** The request a run issues, given the texts of its [id] and [timestamp]. *)
Definition webhook_request (id_text timestamp_text transcript caller_name
  caller_phone : string) : Request :=
  {| method := "POST";
     url := "http://localhost:3000/webhook";
     headers := [ ("Content-Type", "application/json") ];
     json :=
       PyDict
         [ ("id", PyStr id_text);
           ("timestamp", PyStr timestamp_text);
           ("transcript", PyStr transcript);
           ("caller",
            PyDict [ ("name", PyStr caller_name);
                     ("phone", PyStr caller_phone) ]) ] |}.

(** What a run writes to standard output and how it ends, given what the
    transport did with its request. *)
Definition reaction (o : result Response) : string * result unit :=
  match o with
  | Returned resp =>
      if status_code resp =? 200 then
        match json_body resp with
        | Returned v =>
            ("Call transcript sent successfully!" ++ newline
             ++ "Response: " ++ py_str v ++ newline,
             Returned tt)
        | Raised e =>
            if is_RequestException (exc_type e) then
              ("Call transcript sent successfully!" ++ newline
               ++ "Error sending request: " ++ exc_str e ++ newline,
               Returned tt)
            else ("Call transcript sent successfully!" ++ newline, Raised e)
        end
      else
        ("Error: Server returned status code " ++ str_int (status_code resp)
         ++ newline ++ "Response: " ++ text resp ++ newline,
         Returned tt)
  | Raised e =>
      if is_RequestException (exc_type e) then
        ("Error sending request: " ++ exc_str e ++ newline, Returned tt)
      else ("", Raised e)
  end.


(** *** Sample surroundings *)

(** A transport that meets every request with the same outcome. *)
Definition mock_transport (o : result Response) : nat -> Request -> result Response :=
  fun _ _ => o.

(** A clock that yields the listed readings in turn. *)
Definition listed_clock (readings : list Z) : nat -> Z :=
  fun k => nth k readings 0.

Definition sample_env (readings : list Z) (o : result Response) : Env :=
  {| wall_clock := listed_clock readings;
     local_offset := 19800;
     transport := mock_transport o |}.

(** Two readings a fraction of a millisecond apart, within one second. *)
Definition sample_readings : list Z := [1730000000123456; 1730000000123999].

(** Two readings one microsecond apart, on the two sides of the start of a
    second. *)
Definition straddling_readings : list Z := [1730000000999999; 1730000001000000].

(** The readings of two runs in a row, all four within one second. *)
Definition four_readings : list Z :=
  [1730000000123456; 1730000000123999; 1730000000500000; 1730000000500600].

Definition fresh_world : World :=
  {| clock_reads := 0; requests_sent := []; stdout := "" |}.

(** The JSON text [{"status":"ok"}] and the dict it decodes to. *)
Definition status_ok_text : string :=
  "{" ++ String dquote ("status" ++ String dquote (":" ++ String dquote ("ok" ++ String dquote "}"))).

Definition status_ok_response : Response :=
  {| status_code := 200;
     text := status_ok_text;
     json_body := Returned (PyDict [ ("status", PyStr "ok") ]) |}.


(** A status 500 with the plain text body [internal error]. *)
Definition internal_error_response : Response :=
  {| status_code := 500;
     text := "internal error";
     json_body :=
       Raised {| exc_type := JSONDecodeError;
                 exc_str := "Expecting value: line 1 column 1 (char 0)" |} |}.

(** A status 200 whose body is the plain text [OK]; [decode_error] is what
    [response.json()] raises on it. *)
Definition not_json_response (decode_error : exc_class) : Response :=
  {| status_code := 200;
     text := "OK";
     json_body :=
       Raised {| exc_type := decode_error;
                 exc_str := "Expecting value: line 1 column 1 (char 0)" |} |}.

(** The fields of a [datetime] are those of a date and a time of day. *)
Definition wf_datetime (d : datetime) : Prop :=
  1 <= year d <= 9999
  /\ 1 <= month d <= 12
  /\ 1 <= day d <= Calendar._days_in_month (year d) (month d)
  /\ 0 <= hour d <= 23
  /\ 0 <= minute d <= 59
  /\ 0 <= second d <= 59
  /\ 0 <= microsecond d <= 999999.

(** The date-time that [Iso8601.parse] reads from the text of an aware
    [datetime]: its fields, with the offset of its zone. *)
Definition iso_of_datetime (d : datetime) (offset : Z) : Iso8601.t :=
  {| Iso8601.iso_year := year d;
     Iso8601.iso_month := month d;
     Iso8601.iso_day := day d;
     Iso8601.iso_hour := hour d;
     Iso8601.iso_minute := minute d;
     Iso8601.iso_second := second d;
     Iso8601.iso_microsecond := microsecond d;
     Iso8601.iso_offset := offset |}.

(** Repeated check of [f] on [count] consecutive integers from [start]. *)
Fixpoint forall_from (f : Z -> bool) (start : Z) (count : nat) : bool :=
  match count with
  | O => true
  | S k => if f start then forall_from f (start + 1) k else false
  end.

(** What [_ord2ymd] and [_ymd2ord] must satisfy on day [r] of a cycle of 400
    years: a date of the cycle whose ordinal is that day. *)
Definition cycle_day_ok (r : Z) : bool :=
  let '(y, m, d) := Calendar._ord2ymd (r + 1) in
  (1 <=? y) && (y <=? 400) && (1 <=? m) && (m <=? 12)
  && (1 <=? d) && (d <=? Calendar._days_in_month y m)
  && (Calendar._ymd2ord y m d =? r + 1).

(** *** Vocabulary of the further properties *)

(** The exception with which one of the two [datetime.now] calls of a run
    started in [w] fails, if one does: the first call is tried first. *)
Definition clock_failure (env : Env) (w : World) : option exn :=
  match fromtimestamp (local_offset env) (reading env w 0) (Some Asia_Kolkata) with
  | Raised e => Some e
  | Returned _ =>
      match fromtimestamp (local_offset env) (reading env w 1) None with
      | Raised e => Some e
      | Returned _ => None
      end
  end.

(** The transport's outcome for the next request does not depend on what the
    request holds. *)
Definition request_blind (env : Env) (w : World) : Prop :=
  forall r1 r2,
    transport env (List.length (requests_sent w)) r1
    = transport env (List.length (requests_sent w)) r2.

(** The first reading is the first microsecond of the year 10000 in UTC,
    which [datetime] cannot hold. *)
Definition late_readings : list Z := [253402300800000000; 253402300800000001].

(** Two readings in different seconds. *)
Definition distant_readings : list Z := [1730000000123456; 1730000007000000].

(** A first reading on a whole second. *)
Definition whole_second_readings : list Z := [1730000000000000; 1730000000000250].

(** The transcript of the script's example, as one text. *)
Definition example_transcript : string :=
  "Hi, I'm calling about the new JioFiber Gaming Plus plan. " ++ newline
  ++ "    I've been experiencing some latency issues while playing online games. "
  ++ newline
  ++ "    My connection speed is good but the ping seems high.".

(* ------------------------------------------------------------------ *)
(** * Properties *)

(** ** Facts about text *)

Section TextFacts.

Lemma digit_char_ok (d : Z) :
  0 <= d <= 9 -> is_digit (digit_char d) = true /\ digit_val (digit_char d) = d.
Proof.
  intros H.
  assert (C : d = 0 \/ d = 1 \/ d = 2 \/ d = 3 \/ d = 4 \/ d = 5 \/ d = 6
              \/ d = 7 \/ d = 8 \/ d = 9) by lia.
  repeat (destruct C as [C | C]; [subst d; split; reflexivity | ]).
  subst d; split; reflexivity.
Qed.

Lemma all_digits_app (a b : string) :
  all_digits (a ++ b) = all_digits a && all_digits b.
Proof.
  induction a as [| c a IH]; simpl; [reflexivity | ].
  rewrite IH. now rewrite andb_assoc.
Qed.

Lemma digits_value_from_app (a b : string) (acc : Z) :
  digits_value_from acc (a ++ b) = digits_value_from (digits_value_from acc a) b.
Proof.
  revert acc. induction a as [| c a IH]; intros acc; simpl; [reflexivity | ].
  apply IH.
Qed.

Lemma length_app (a b : string) :
  String.length (a ++ b) = (String.length a + String.length b)%nat.
Proof.
  induction a as [| c a IH]; simpl; [reflexivity | ]. now rewrite IH.
Qed.

Lemma app_assoc_str (a b c : string) : (a ++ b) ++ c = a ++ (b ++ c).
Proof.
  induction a as [| x a IH]; simpl; [reflexivity | now rewrite IH].
Qed.

Lemma app_empty_r (a : string) : a ++ "" = a.
Proof.
  induction a as [| x a IH]; simpl; [reflexivity | now rewrite IH].
Qed.

Lemma digits_fuel_S (f : nat) (n : Z) :
  digits_fuel (S f) n =
  if n <? 10 then String (digit_char n) ""
  else digits_fuel f (n / 10) ++ String (digit_char (n mod 10)) "".
Proof. reflexivity. Qed.

(** With fuel for its digits, a number is printed as digits that read back
    as the number. *)
Lemma digits_fuel_reads (f : nat) :
  forall n, 0 <= n < 10 ^ Z.of_nat f ->
    all_digits (digits_fuel f n) = true
    /\ digits_value (digits_fuel f n) = n
    /\ (String.length (digits_fuel f n) <= f)%nat.
Proof.
  induction f as [| f IH]; intros n Hn.
  - simpl in *. repeat split; try reflexivity. unfold digits_value; simpl. lia.
  - rewrite digits_fuel_S.
    destruct (Z.ltb_spec n 10) as [Hlt | Hge].
    + destruct (digit_char_ok n) as [D1 D2]; [lia | ].
      unfold digits_value.
      cbn [all_digits digits_value_from String.length]. rewrite D1, D2.
      repeat split; lia.
    + assert (Hq : 0 <= n / 10 < 10 ^ Z.of_nat f).
      { rewrite Nat2Z.inj_succ, Z.pow_succ_r in Hn by lia.
        split; [apply Z.div_pos; lia | apply Z.div_lt_upper_bound; lia]. }
      destruct (IH _ Hq) as (A & V & L).
      destruct (digit_char_ok (n mod 10)) as [D1 D2].
      { pose proof (Z.mod_pos_bound n 10). lia. }
      rewrite all_digits_app, length_app. unfold digits_value in *.
      rewrite digits_value_from_app, V.
      cbn [all_digits digits_value_from String.length]. rewrite A, D1, D2.
      repeat split; try reflexivity; try lia.
      pose proof (Z.div_mod n 10). lia.
Qed.

(** The digits do not depend on the fuel, once there is enough of it. *)
Lemma digits_fuel_enough (f : nat) :
  forall (g : nat) (n : Z),
    0 <= n < 10 ^ Z.of_nat (S f) -> n < 10 ^ Z.of_nat (S g) ->
    digits_fuel (S f) n = digits_fuel (S g) n.
Proof.
  induction f as [| f IH]; intros g n Hf Hg.
  - rewrite !digits_fuel_S. change (10 ^ Z.of_nat 1) with 10 in Hf.
    destruct (Z.ltb_spec n 10); [reflexivity | lia].
  - rewrite (digits_fuel_S (S f)), (digits_fuel_S g).
    destruct (Z.ltb_spec n 10) as [Hlt | Hge]; [reflexivity | ].
    destruct g as [| g].
    { change (10 ^ Z.of_nat 1) with 10 in Hg. lia. }
    f_equal. apply IH.
    + rewrite (Nat2Z.inj_succ (S f)), Z.pow_succ_r in Hf by lia.
      split; [apply Z.div_pos; lia | apply Z.div_lt_upper_bound; lia].
    + rewrite (Nat2Z.inj_succ (S g)), Z.pow_succ_r in Hg by lia.
      apply Z.div_lt_upper_bound; lia.
Qed.

Lemma below_power_of_log2 (n : Z) :
  0 <= n -> n < 10 ^ Z.of_nat (S (Z.to_nat (Z.log2 n))).
Proof.
  intros Hn. pose proof (Z.log2_nonneg n) as Hl.
  rewrite Nat2Z.inj_succ, Z2Nat.id by lia.
  destruct (Z.eq_dec n 0) as [-> | Hz]; [reflexivity | ].
  destruct (Z.log2_spec n) as [_ Hu]; [lia | ].
  eapply Z.lt_le_trans; [exact Hu | ].
  apply Z.pow_le_mono_l. lia.
Qed.

Lemma digits_with_fuel (f : nat) (n : Z) :
  0 <= n < 10 ^ Z.of_nat (S f) -> digits n = digits_fuel (S f) n.
Proof.
  intros H. unfold digits. apply digits_fuel_enough; [ | lia].
  split; [lia | apply below_power_of_log2; lia].
Qed.

(** [str(n)] of a natural number is a number in the reader's sense, and
    reads back as [n]. *)
Lemma digits_reads (n : Z) :
  0 <= n -> is_number (digits n) = true /\ digits_value (digits n) = n.
Proof.
  intros Hn. unfold digits.
  destruct (digits_fuel_reads (S (Z.to_nat (Z.log2 n))) n) as (A & V & _).
  { split; [lia | now apply below_power_of_log2]. }
  split; [ | exact V].
  rewrite digits_fuel_S in *.
  destruct (n <? 10); [exact A | ].
  destruct (digits_fuel _ _); exact A.
Qed.

Lemma all_digits_zeros (k : nat) : all_digits (zeros k) = true.
Proof. induction k; simpl; [reflexivity | exact IHk]. Qed.

Lemma length_zeros (k : nat) : String.length (zeros k) = k.
Proof. induction k; simpl; [reflexivity | now rewrite IHk]. Qed.

Lemma digits_value_zeros (k : nat) : digits_value_from 0 (zeros k) = 0.
Proof. induction k; simpl; [reflexivity | exact IHk]. Qed.

(** A field printed with ["%0wd"] has exactly [w] digits and reads back as
    its value, when the value fits the width. *)
Lemma fmt_d_fixed (w : nat) (n : Z) :
  0 <= n < 10 ^ Z.of_nat (S w) ->
  String.length (fmt_d (S w) n) = S w
  /\ all_digits (fmt_d (S w) n) = true
  /\ digits_value (fmt_d (S w) n) = n.
Proof.
  intros H. unfold fmt_d.
  destruct (Z.ltb_spec n 0) as [Hneg | _]; [lia | ].
  rewrite (digits_with_fuel w) by exact H.
  destruct (digits_fuel_reads (S w) n H) as (A & V & L).
  unfold zfill. rewrite length_app, length_zeros, all_digits_app, all_digits_zeros.
  unfold digits_value in *. rewrite digits_value_from_app, digits_value_zeros.
  repeat split; [lia | exact A | exact V].
Qed.

Lemma take_app_exact (a b : string) (k : nat) :
  String.length a = k -> take k (a ++ b) = a.
Proof.
  revert k. induction a as [| c a IH]; intros k Hk; simpl in *.
  - subst k. destruct b; reflexivity.
  - subst k. simpl. f_equal. now apply IH.
Qed.

Lemma drop_app_exact (a b : string) (k : nat) :
  String.length a = k -> drop k (a ++ b) = b.
Proof.
  revert k. induction a as [| c a IH]; intros k Hk; simpl in *.
  - subst k. destruct b; reflexivity.
  - subst k. simpl. now apply IH.
Qed.

Lemma starts_with_app (p s : string) : starts_with p (p ++ s) = true.
Proof.
  induction p as [| c p IH]; simpl; [reflexivity | ].
  now rewrite Ascii.eqb_refl, IH.
Qed.



End TextFacts.

(** ** Facts about the calendar *)

Section CalendarFacts.
Import Calendar.

Lemma forall_from_true (f : Z -> bool) (count : nat) :
  forall start, forall_from f start count = true ->
  forall i, start <= i < start + Z.of_nat count -> f i = true.
Proof.
  induction count as [| k IH]; intros start H i Hi; [lia | ].
  cbn [forall_from] in H.
  destruct (f start) eqn:F; [ | discriminate].
  destruct (Z.eq_dec i start) as [-> | Hne]; [exact F | ].
  apply (IH (start + 1) H). lia.
Qed.

(** Every day of one cycle of 400 years, checked by running the two
    conversions on it. *)
Lemma cycle_checked : forall_from cycle_day_ok 0 (Z.to_nat 146097) = true.
Proof. vm_compute. reflexivity. Qed.

Lemma cycle_day (r : Z) : 0 <= r < 146097 -> cycle_day_ok r = true.
Proof.
  intros H. apply (forall_from_true _ _ 0 cycle_checked).
  rewrite Z2Nat.id; lia.
Qed.

Lemma is_leap_shift (y q : Z) : _is_leap (y + 400 * q) = _is_leap y.
Proof.
  unfold _is_leap.
  replace ((y + 400 * q) mod 4) with (y mod 4)
    by (replace (y + 400 * q) with (y + (100 * q) * 4) by lia;
        now rewrite Z.mod_add by lia).
  replace ((y + 400 * q) mod 100) with (y mod 100)
    by (replace (y + 400 * q) with (y + (4 * q) * 100) by lia;
        now rewrite Z.mod_add by lia).
  replace ((y + 400 * q) mod 400) with (y mod 400)
    by (replace (y + 400 * q) with (y + q * 400) by lia;
        now rewrite Z.mod_add by lia).
  reflexivity.
Qed.

Lemma days_before_year_shift (y q : Z) :
  _days_before_year (y + 400 * q) = _days_before_year y + 146097 * q.
Proof.
  unfold _days_before_year. cbv zeta.
  replace ((y + 400 * q - 1) / 4) with ((y - 1) / 4 + 100 * q)
    by (replace (y + 400 * q - 1) with (y - 1 + (100 * q) * 4) by lia;
        now rewrite Z.div_add by lia).
  replace ((y + 400 * q - 1) / 100) with ((y - 1) / 100 + 4 * q)
    by (replace (y + 400 * q - 1) with (y - 1 + (4 * q) * 100) by lia;
        now rewrite Z.div_add by lia).
  replace ((y + 400 * q - 1) / 400) with ((y - 1) / 400 + q)
    by (replace (y + 400 * q - 1) with (y - 1 + q * 400) by lia;
        now rewrite Z.div_add by lia).
  lia.
Qed.

Lemma ymd2ord_shift (y m d q : Z) :
  _ymd2ord (y + 400 * q) m d = _ymd2ord y m d + 146097 * q.
Proof.
  unfold _ymd2ord, _days_before_month.
  rewrite is_leap_shift, days_before_year_shift. lia.
Qed.

Lemma days_in_month_shift (y m q : Z) :
  _days_in_month (y + 400 * q) m = _days_in_month y m.
Proof. unfold _days_in_month. now rewrite is_leap_shift. Qed.

(** [_ord2ymd] works cycle by cycle: the date of a day is the date of its
    place in the cycle, 400 years later for each cycle before it. *)
Lemma ord2ymd_shift (q r : Z) :
  0 <= r < 146097 ->
  _ord2ymd (146097 * q + r + 1) =
  let '(y, m, d) := _ord2ymd (r + 1) in (y + 400 * q, m, d).
Proof.
  intros Hr. unfold _ord2ymd. cbv zeta.
  replace (146097 * q + r + 1 - 1) with (r + q * _DI400Y)
    by (unfold _DI400Y; lia).
  replace (r + 1 - 1) with r by lia.
  rewrite Z.div_add, Z.mod_add by (unfold _DI400Y; lia).
  rewrite (Z.div_small r _DI400Y), (Z.mod_small r _DI400Y)
    by (unfold _DI400Y; lia).
  repeat match goal with
         | |- context [if ?c then _ else _] => destruct c
         end;
    f_equal; try f_equal; lia.
Qed.

Lemma days_before_month_nonneg (y m : Z) :
  1 <= m <= 12 -> 0 <= _days_before_month y m.
Proof.
  intros H. unfold _days_before_month.
  assert (C : m = 1 \/ m = 2 \/ m = 3 \/ m = 4 \/ m = 5 \/ m = 6 \/ m = 7
              \/ m = 8 \/ m = 9 \/ m = 10 \/ m = 11 \/ m = 12) by lia.
  repeat (destruct C as [C | C];
          [subst m; cbn [_DAYS_BEFORE_MONTH]; destruct (_ && _); lia | ]).
  subst m; cbn [_DAYS_BEFORE_MONTH]; destruct (_ && _); lia.
Qed.

(** The date of an ordinal in [datetime]'s range: a date of the years 1 to
    9999 whose ordinal is the one given. *)
Lemma ord2ymd_ok (n : Z) :
  1 <= n <= _MAXORDINAL ->
  exists y m d,
    _ord2ymd n = (y, m, d)
    /\ 1 <= y <= 9999 /\ 1 <= m <= 12 /\ 1 <= d <= _days_in_month y m
    /\ _ymd2ord y m d = n.
Proof.
  unfold _MAXORDINAL. intros Hn.
  pose (q := (n - 1) / 146097). pose (r := (n - 1) mod 146097).
  assert (Hr : 0 <= r < 146097) by (apply Z.mod_pos_bound; lia).
  assert (En : n = 146097 * q + r + 1)
    by (pose proof (Z.div_mod (n - 1) 146097); unfold q, r; lia).
  assert (Hq : 0 <= q <= 24).
  { unfold q. split; [apply Z.div_pos; lia | ].
    apply Z.lt_succ_r. apply Z.div_lt_upper_bound; lia. }
  pose proof (cycle_day r Hr) as Hc. unfold cycle_day_ok in Hc.
  assert (Eo : _ord2ymd n = _ord2ymd (146097 * q + r + 1)) by (f_equal; exact En).
  rewrite Eo, (ord2ymd_shift q r Hr).
  destruct (_ord2ymd (r + 1)) as [[y m] d].
  rewrite !andb_true_iff, !Z.leb_le, Z.eqb_eq in Hc.
  destruct Hc as ((((((Y1 & Y2) & M1) & M2) & D1) & D2) & E).
  exists (y + 400 * q), m, d.
  rewrite days_in_month_shift, ymd2ord_shift, E.
  repeat split; try lia.
  destruct (Z_le_gt_dec (y + 400 * q) 9999) as [Hle | Hgt]; [exact Hle | exfalso].
  assert (y = 400 /\ q = 24) as [-> ->] by lia.
  pose proof (days_before_month_nonneg 400 m (conj M1 M2)) as Hm.
  unfold _ymd2ord in E. change (_days_before_year 400) with 145731 in E.
  lia.
Qed.

End CalendarFacts.

(** ** Facts about [datetime] *)

Section DateTimeFacts.
Import Calendar.

(** Within [datetime]'s range the fields of a moment are well formed and
    read back as the moment. *)
Lemma of_epoch_us_ok (us : Z) (z : option tzinfo) :
  (1 - EPOCH_ORDINAL) * US_PER_DAY <= us
    < (_MAXORDINAL - EPOCH_ORDINAL + 1) * US_PER_DAY ->
  exists d,
    of_epoch_us us z = Some d /\ wf_datetime d /\ tz d = z /\ to_epoch_us d = us.
Proof.
  unfold EPOCH_ORDINAL, _MAXORDINAL, US_PER_DAY, US_PER_SECOND.
  change (86400 * 1000000) with 86400000000. intros H.
  unfold of_epoch_us, EPOCH_ORDINAL, _MAXORDINAL, US_PER_DAY, US_PER_SECOND.
  change (86400 * 1000000) with 86400000000.
  change (3600 * 1000000) with 3600000000.
  change (60 * 1000000) with 60000000.
  cbv zeta.
  assert (Ho : 1 <= 719163 + us / 86400000000 <= 3652059)
    by (Z.div_mod_to_equations; lia).
  destruct (ord2ymd_ok _ Ho) as (y & m & d & E & Hy & Hm & Hd & Ey).
  replace ((1 <=? 719163 + us / 86400000000)
           && (719163 + us / 86400000000 <=? 3652059)) with true
    by (symmetry; apply andb_true_iff; split; apply Z.leb_le; lia).
  rewrite E. eexists. split; [reflexivity | ].
  unfold wf_datetime, to_epoch_us, EPOCH_ORDINAL, US_PER_SECOND.
  cbn [year month day hour minute second microsecond tz].
  rewrite Ey.
  repeat split; try exact (proj1 Hy); try exact (proj2 Hy);
    try exact (proj1 Hm); try exact (proj2 Hm);
    try exact (proj1 Hd); try exact (proj2 Hd);
    Z.div_mod_to_equations; lia.
Qed.

(** A clock reading in range, shifted by less than a day, is a moment that
    [datetime] holds. *)
Lemma shifted_reading_in_range (t off : Z) :
  clock_in_range t -> -86400 < off < 86400 ->
  (1 - EPOCH_ORDINAL) * US_PER_DAY <= t + off * US_PER_SECOND
    < (_MAXORDINAL - EPOCH_ORDINAL + 1) * US_PER_DAY.
Proof.
  unfold clock_in_range, CLOCK_END, EPOCH_ORDINAL, _MAXORDINAL, US_PER_DAY,
    US_PER_SECOND.
  change (2 ^ 34) with 17179869184. lia.
Qed.

(** [datetime.fromtimestamp(t, ist)] within the range: the fields of the
    moment five and a half hours later, in the zone. *)
Lemma fromtimestamp_ist (lo t : Z) :
  clock_in_range t ->
  exists d,
    fromtimestamp lo t (Some Asia_Kolkata) = Returned d
    /\ wf_datetime d /\ tz d = Some Asia_Kolkata
    /\ to_epoch_us d = t + 19800 * US_PER_SECOND.
Proof.
  intros Ht. unfold fromtimestamp.
  destruct (of_epoch_us_ok t None) as (u & Eu & _).
  { replace t with (t + 0 * US_PER_SECOND) by lia.
    apply shifted_reading_in_range; [exact Ht | lia]. }
  rewrite Eu.
  destruct (of_epoch_us_ok (t + utcoffset Asia_Kolkata * US_PER_SECOND)
              (Some Asia_Kolkata)) as (d & Ed & W & Z0 & T).
  { apply shifted_reading_in_range; [exact Ht | cbn; lia]. }
  rewrite Ed. exists d. repeat split; try apply W; assumption.
Qed.

(** [datetime.fromtimestamp(t)] within the range succeeds, and
    [timestamp()] gives the reading back. *)
Lemma fromtimestamp_local (lo t : Z) :
  clock_in_range t -> -86400 < lo < 86400 ->
  exists d, fromtimestamp lo t None = Returned d /\ timestamp lo d = t.
Proof.
  intros Ht Hlo. unfold fromtimestamp.
  destruct (of_epoch_us_ok (t + lo * US_PER_SECOND) None) as (d & Ed & _ & Z0 & T).
  { now apply shifted_reading_in_range. }
  rewrite Ed. exists d. split; [reflexivity | ].
  unfold timestamp. rewrite Z0, T. lia.
Qed.

Lemma int_of_seconds_floor (t : Z) : 0 <= t -> int_of_seconds t = epoch_second t.
Proof.
  intros H. unfold int_of_seconds, epoch_second, US_PER_SECOND.
  apply Z.quot_div_nonneg; lia.
Qed.

End DateTimeFacts.

(** ** Facts about the ISO 8601 reader *)

Section IsoFacts.
Import Iso8601.

Lemma read_digits_fmt (w : nat) (n : Z) (rest : string) :
  0 <= n < 10 ^ Z.of_nat (S w) ->
  read_digits (S w) (fmt_d (S w) n ++ rest) = Some (n, rest).
Proof.
  intros H. destruct (fmt_d_fixed w n H) as (L & A & V).
  unfold read_digits.
  rewrite (take_app_exact _ _ _ L), (drop_app_exact _ _ _ L), L, Nat.eqb_refl, A, V.
  reflexivity.
Qed.

Lemma read_char_here (c : ascii) (rest : string) :
  read_char c (String c "" ++ rest) = Some rest.
Proof. cbn [append read_char]. now rewrite Ascii.eqb_refl. Qed.

Lemma days_in_month_le_31 (y m : Z) : Calendar._days_in_month y m <= 31.
Proof.
  unfold Calendar._days_in_month, Calendar._DAYS_IN_MONTH.
  destruct (_ && _); [lia | ].
  destruct m as [| p | p]; try lia.
  do 4 (try destruct p as [p | p | ]; try lia).
Qed.

Ltac step_digits w :=
  rewrite (read_digits_fmt w)
    by (first [ change (10 ^ Z.of_nat 2) with 100
              | change (10 ^ Z.of_nat 4) with 10000
              | change (10 ^ Z.of_nat 6) with 1000000 ]; lia);
  cbv beta iota.

Ltac step_char := rewrite read_char_here; cbv beta iota.

(** The text [isoformat] gives for a well-formed [datetime] of the zone is
    read by the ISO 8601 reader as the same fields at offset +05:30. *)
Lemma isoformat_ist_parses (d : datetime) :
  wf_datetime d -> tz d = Some Asia_Kolkata ->
  parse (isoformat d) = Some (iso_of_datetime d 19800).
Proof.
  intros (Hy & Hm & Hd & Hh & Hmi & Hs & Hus) Hz.
  pose proof (days_in_month_le_31 (year d) (month d)) as H31.
  unfold isoformat, _format_time. rewrite Hz.
  change (_format_offset (option_map utcoffset (Some Asia_Kolkata))) with "+05:30".
  rewrite !app_assoc_str.
  unfold parse.
  step_digits 3%nat. step_char. step_digits 1%nat. step_char. step_digits 1%nat.
  step_char. step_digits 1%nat. step_char. step_digits 1%nat. step_char.
  step_digits 1%nat.
  assert (F : read_fraction
                ((if microsecond d =? 0 then "" else "." ++ fmt_d 6 (microsecond d))
                 ++ "+05:30") = Some (microsecond d, "+05:30")).
  { destruct (Z.eqb_spec (microsecond d) 0) as [E0 | Hne].
    - rewrite E0. reflexivity.
    - rewrite app_assoc_str. unfold read_fraction.
      rewrite read_char_here. step_digits 5%nat. reflexivity. }
  rewrite F. cbv beta iota.
  change (read_sign "+05:30") with (Some (1, "05:30")). cbv beta iota.
  change (read_digits 2 "05:30") with (Some (5, ":30")). cbv beta iota.
  change (read_char ":" ":30") with (Some "30"). cbv beta iota.
  change (read_digits 2 "30") with (Some (30, "")). cbv beta iota.
  change (1 * (5 * 3600 + 30 * 60)) with 19800.
  fold (iso_of_datetime d 19800).
  replace (in_ranges (iso_of_datetime d 19800)) with true; [reflexivity | ].
  unfold in_ranges, iso_of_datetime.
  cbn [iso_year iso_month iso_day iso_hour iso_minute iso_second iso_offset].
  repeat rewrite (proj2 (Z.leb_le _ _)) by lia.
  reflexivity.
Qed.

Lemma isoformat_ist_suffix (d : datetime) :
  tz d = Some Asia_Kolkata -> exists body, isoformat d = body ++ "+05:30".
Proof.
  intros Hz. unfold isoformat. rewrite Hz.
  change (_format_offset (option_map utcoffset (Some Asia_Kolkata))) with "+05:30".
  eexists. rewrite <- !app_assoc_str. reflexivity.
Qed.

Lemma instant_of_datetime (d : datetime) (o : Z) :
  instant (iso_of_datetime d o) = to_epoch_us d - o * US_PER_SECOND.
Proof.
  unfold instant, iso_of_datetime, to_epoch_us, US_PER_SECOND.
  cbn [iso_year iso_month iso_day iso_hour iso_minute iso_second
       iso_microsecond iso_offset].
  lia.
Qed.

End IsoFacts.

(** ** Facts about runs *)

Section RunFacts.

Lemma reading_0 (env : Env) (w : World) :
  reading env w 0 = wall_clock env (clock_reads w).
Proof. unfold reading. now rewrite Nat.add_0_r. Qed.

Lemma reading_1 (env : Env) (w : World) :
  reading env w 1 = wall_clock env (S (clock_reads w)).
Proof. unfold reading. now rewrite Nat.add_1_r. Qed.

(** A run whose clock is in range reads the clock twice, issues the one
    request built from the two readings and the arguments, and then prints
    and ends as [reaction] says of what the transport did with it. *)
Lemma run_refines (env : Env) (w : World) (tr n p : string) :
  clock_ok env w ->
  exists d0,
    wf_datetime d0 /\ tz d0 = Some Asia_Kolkata
    /\ to_epoch_us d0 = reading env w 0 + 19800 * US_PER_SECOND
    /\ let req :=
         webhook_request ("call_" ++ str_int (epoch_second (reading env w 1)))
           (isoformat d0) tr n p in
       let o := transport env (List.length (requests_sent w)) req in
       send_call_transcript tr n p env w =
       (snd (reaction o),
        {| clock_reads := S (S (clock_reads w));
           requests_sent := requests_sent w ++ [req];
           stdout := stdout w ++ fst (reaction o) |}).
Proof.
  intros (Hlo & H0 & H1).
  rewrite reading_0 in *. rewrite reading_1 in *.
  destruct (fromtimestamp_ist (local_offset env) _ H0) as (d0 & E0 & W0 & Z0 & T0).
  destruct (fromtimestamp_local (local_offset env) _ H1 Hlo) as (d1 & E1 & T1).
  exists d0. repeat split; try apply W0; try assumption.
  cbv zeta.
  unfold send_call_transcript, datetime_now, bind, time_time, datetime_timestamp,
    try_except, requests_post, response_json, lift, print.
  cbn [clock_reads requests_sent stdout]. rewrite E0.
  cbn [clock_reads requests_sent stdout]. rewrite E1.
  cbn [clock_reads requests_sent stdout]. rewrite T1.
  rewrite int_of_seconds_floor by (destruct H1; lia).
  fold (webhook_request
          ("call_" ++ str_int (epoch_second (wall_clock env (S (clock_reads w)))))
          (isoformat d0) tr n p).
  destruct (transport env _ _) as [resp | e]; cbn [reaction].
  - destruct (status_code resp =? 200).
    + cbn [clock_reads requests_sent stdout].
      destruct (json_body resp) as [v | e].
      * cbn [fst snd clock_reads requests_sent stdout join_space].
        now rewrite !app_assoc_str.
      * destruct (is_RequestException (exc_type e));
          cbn [fst snd clock_reads requests_sent stdout join_space];
          now rewrite ?app_assoc_str.
    + cbn [fst snd clock_reads requests_sent stdout join_space].
      now rewrite !app_assoc_str.
  - destruct (is_RequestException (exc_type e));
      cbn [fst snd clock_reads requests_sent stdout join_space].
    + reflexivity.
    + now rewrite app_empty_r.
Qed.

End RunFacts.

(** ** The claims *)

Section Claims.

Ltac by_computation := vm_compute; repeat split; (reflexivity || discriminate).

(** C1.  For every triple of strings (transcript, caller name, caller phone),
    empty or malformed ones included, the payload of the request that the run
    issues has the transcript under ["transcript"], and under ["caller"] a
    dict with the caller name under ["name"] and the caller phone under
    ["phone"], each exactly as given: nothing is validated, rejected or
    normalised.  (The clock is assumed in range, see [clock_ok].) *)
Theorem C1_payload_carries_inputs (env : Env) (w : World)
  (transcript caller_name caller_phone : string) :
  clock_ok env w ->
  exists req caller,
    requests_sent (snd (send_call_transcript transcript caller_name caller_phone env w))
      = (requests_sent w ++ [req])%list
    /\ dict_get "transcript" (json req) = Some (PyStr transcript)
    /\ dict_get "caller" (json req) = Some caller
    /\ dict_get "name" caller = Some (PyStr caller_name)
    /\ dict_get "phone" caller = Some (PyStr caller_phone).
Proof.
  intros H.
  destruct (run_refines env w transcript caller_name caller_phone H)
    as (d0 & _ & _ & _ & E).
  cbv zeta in E. rewrite E. cbn [snd requests_sent].
  eexists. eexists. split; [reflexivity | ].
  repeat split; reflexivity.
Qed.

Lemma C1_witness_empty_and_malformed :
  clock_ok (sample_env sample_readings (Returned status_ok_response)) fresh_world
  /\ exists req caller,
       requests_sent
         (snd (send_call_transcript "" "" "not a phone"
                 (sample_env sample_readings (Returned status_ok_response))
                 fresh_world))
         = (requests_sent fresh_world ++ [req])%list
       /\ dict_get "transcript" (json req) = Some (PyStr "")
       /\ dict_get "caller" (json req) = Some caller
       /\ dict_get "name" caller = Some (PyStr "")
       /\ dict_get "phone" caller = Some (PyStr "not a phone").
Proof.
  split; [by_computation | ].
  apply C1_payload_carries_inputs. by_computation.
Defined.

(** C2.  The [id] of the payload is the prefix [call_] followed by the
    decimal digits of the whole seconds since the epoch at the second clock
    reading: it matches [call_<digits>], and the digits read back as that
    non-negative count.  (The clock is assumed in range, see [clock_ok].) *)
Theorem C2_id_is_call_digits (env : Env) (w : World)
  (transcript caller_name caller_phone : string) :
  clock_ok env w ->
  exists req ident,
    requests_sent (snd (send_call_transcript transcript caller_name caller_phone env w))
      = (requests_sent w ++ [req])%list
    /\ dict_get "id" (json req) = Some (PyStr ident)
    /\ ident = "call_" ++ str_int (epoch_second (reading env w 1))
    /\ is_call_id ident = true
    /\ call_id_number ident = Some (epoch_second (reading env w 1))
    /\ 0 <= epoch_second (reading env w 1).
Proof.
  intros H.
  destruct (run_refines env w transcript caller_name caller_phone H)
    as (d0 & _ & _ & _ & E).
  cbv zeta in E. rewrite E. cbn [snd requests_sent].
  destruct H as (_ & _ & H1).
  assert (Hs : 0 <= epoch_second (reading env w 1)).
  { unfold epoch_second, US_PER_SECOND. apply Z.div_pos; [apply H1 | lia]. }
  destruct (digits_reads _ Hs) as [N V].
  assert (Es : str_int (epoch_second (reading env w 1))
               = digits (epoch_second (reading env w 1))).
  { unfold str_int. destruct (Z.ltb_spec (epoch_second (reading env w 1)) 0);
      [lia | reflexivity]. }
  eexists. eexists. split; [reflexivity | ].
  split; [reflexivity | ]. split; [reflexivity | ].
  unfold is_call_id, call_id_number, parse_number.
  rewrite starts_with_app, (drop_app_exact "call_" _ 5 eq_refl), Es, N, V.
  repeat split. exact Hs.
Qed.

Lemma C2_witness_sample_id :
  clock_ok (sample_env sample_readings (Returned status_ok_response)) fresh_world
  /\ exists req ident,
       requests_sent
         (snd (send_call_transcript "hello" "Arjun Kumar" "+91-9876543210"
                 (sample_env sample_readings (Returned status_ok_response))
                 fresh_world))
         = (requests_sent fresh_world ++ [req])%list
       /\ dict_get "id" (json req) = Some (PyStr ident)
       /\ ident = "call_" ++ str_int 1730000000
       /\ is_call_id ident = true
       /\ call_id_number ident = Some 1730000000
       /\ 0 <= 1730000000.
Proof.
  split; [by_computation | ].
  apply (C2_id_is_call_digits
           (sample_env sample_readings (Returned status_ok_response))
           fresh_world).
  by_computation.
Defined.

(** C3.  The [timestamp] of the payload is a well-formed ISO 8601 date-time
    (the reader accepts it), its offset is +05:30 (the text ends with
    [+05:30] and the offset read is five and a half hours), and the moment
    it denotes is the first clock reading of the run.  (The clock is assumed
    in range, see [clock_ok].) *)
Theorem C3_timestamp_is_iso8601_ist (env : Env) (w : World)
  (transcript caller_name caller_phone : string) :
  clock_ok env w ->
  exists req stamp v body,
    requests_sent (snd (send_call_transcript transcript caller_name caller_phone env w))
      = (requests_sent w ++ [req])%list
    /\ dict_get "timestamp" (json req) = Some (PyStr stamp)
    /\ Iso8601.parse stamp = Some v
    /\ Iso8601.iso_offset v = 5 * 3600 + 30 * 60
    /\ stamp = body ++ "+05:30"
    /\ Iso8601.instant v = reading env w 0.
Proof.
  intros H.
  destruct (run_refines env w transcript caller_name caller_phone H)
    as (d0 & W0 & Z0 & T0 & E).
  cbv zeta in E. rewrite E. cbn [snd requests_sent].
  destruct (isoformat_ist_suffix d0 Z0) as (body & Eb).
  eexists. exists (isoformat d0), (iso_of_datetime d0 19800), body.
  split; [reflexivity | ]. split; [reflexivity | ].
  split; [now apply isoformat_ist_parses | ].
  split; [reflexivity | ]. split; [exact Eb | ].
  rewrite instant_of_datetime, T0. lia.
Qed.

Lemma C3_witness_sample_timestamp :
  clock_ok (sample_env sample_readings (Returned status_ok_response)) fresh_world
  /\ exists req stamp v body,
       requests_sent
         (snd (send_call_transcript "hello" "Arjun Kumar" "+91-9876543210"
                 (sample_env sample_readings (Returned status_ok_response))
                 fresh_world))
         = (requests_sent fresh_world ++ [req])%list
       /\ dict_get "timestamp" (json req) = Some (PyStr stamp)
       /\ Iso8601.parse stamp = Some v
       /\ Iso8601.iso_offset v = 5 * 3600 + 30 * 60
       /\ stamp = body ++ "+05:30"
       /\ Iso8601.instant v = 1730000000123456.
Proof.
  split; [by_computation | ].
  apply (C3_timestamp_is_iso8601_ist
           (sample_env sample_readings (Returned status_ok_response))
           fresh_world).
  by_computation.
Defined.

(** C4.  Whatever the transport does with it, a run issues exactly one
    request: a POST to [http://localhost:3000/webhook] with the header
    [Content-Type: application/json], whose JSON payload is the call report
    with the keys [id], [timestamp], [transcript] and [caller] (name and
    phone); nothing is sent again.  (The clock is assumed in
    range, see [clock_ok].) *)
Theorem C4_exactly_one_post (env : Env) (w : World)
  (transcript caller_name caller_phone : string) :
  clock_ok env w ->
  exists ident stamp,
    requests_sent (snd (send_call_transcript transcript caller_name caller_phone env w))
    = (requests_sent w
      ++ [ {| method := "POST";
              url := "http://localhost:3000/webhook";
              headers := [ ("Content-Type", "application/json") ];
              json :=
                PyDict
                  [ ("id", PyStr ident);
                    ("timestamp", PyStr stamp);
                    ("transcript", PyStr transcript);
                    ("caller",
                     PyDict [ ("name", PyStr caller_name);
                              ("phone", PyStr caller_phone) ]) ] |} ])%list.
Proof.
  intros H.
  destruct (run_refines env w transcript caller_name caller_phone H)
    as (d0 & _ & _ & _ & E).
  cbv zeta in E. rewrite E. cbn [snd requests_sent].
  eexists. eexists. reflexivity.
Qed.

Lemma C4_witness_refused_connection :
  clock_ok
    (sample_env sample_readings
       (Raised {| exc_type := ConnectionError; exc_str := "Connection refused" |}))
    fresh_world
  /\ exists ident stamp,
       requests_sent
         (snd (send_call_transcript "hello" "Arjun Kumar" "+91-9876543210"
                 (sample_env sample_readings
                    (Raised {| exc_type := ConnectionError;
                               exc_str := "Connection refused" |}))
                 fresh_world))
       = (requests_sent fresh_world
         ++ [ {| method := "POST";
                 url := "http://localhost:3000/webhook";
                 headers := [ ("Content-Type", "application/json") ];
                 json :=
                   PyDict
                     [ ("id", PyStr ident);
                       ("timestamp", PyStr stamp);
                       ("transcript", PyStr "hello");
                       ("caller",
                        PyDict [ ("name", PyStr "Arjun Kumar");
                                 ("phone", PyStr "+91-9876543210") ]) ] |} ])%list.
Proof.
  split; [by_computation | ].
  apply C4_exactly_one_post. by_computation.
Defined.









(** C8.  Two runs whose second clock readings (the ones the [id] is built
    from) fall in the same whole second since the epoch put the same [id] in
    their payloads, whatever their arguments.  (Both clocks are assumed
    in range, see [clock_ok].) *)
Theorem C8_same_second_same_id (env1 env2 : Env) (w1 w2 : World)
  (transcript1 name1 phone1 transcript2 name2 phone2 : string) :
  clock_ok env1 w1 ->
  clock_ok env2 w2 ->
  epoch_second (reading env1 w1 1) = epoch_second (reading env2 w2 1) ->
  exists req1 req2 ident,
    requests_sent (snd (send_call_transcript transcript1 name1 phone1 env1 w1))
      = (requests_sent w1 ++ [req1])%list
    /\ requests_sent (snd (send_call_transcript transcript2 name2 phone2 env2 w2))
      = (requests_sent w2 ++ [req2])%list
    /\ dict_get "id" (json req1) = Some (PyStr ident)
    /\ dict_get "id" (json req2) = Some (PyStr ident).
Proof.
  intros H1 H2 Hs.
  destruct (run_refines env1 w1 transcript1 name1 phone1 H1)
    as (d1 & _ & _ & _ & E1).
  destruct (run_refines env2 w2 transcript2 name2 phone2 H2)
    as (d2 & _ & _ & _ & E2).
  cbv zeta in E1, E2. rewrite E1, E2. cbn [snd requests_sent].
  eexists. eexists. eexists.
  split; [reflexivity | ]. split; [reflexivity | ].
  split; [reflexivity | ].
  cbn [webhook_request json dict_get assoc]. rewrite Hs. reflexivity.
Qed.

(** Two runs in a row, the second starting in the world the first left, all
    readings within one second. *)
Lemma C8_witness_two_runs_in_a_row :
  clock_ok (sample_env four_readings (Returned status_ok_response)) fresh_world
  /\ clock_ok (sample_env four_readings (Returned status_ok_response))
       (snd (send_call_transcript "first" "A" "1"
               (sample_env four_readings (Returned status_ok_response))
               fresh_world))
  /\ exists req1 req2 ident,
       requests_sent
         (snd (send_call_transcript "first" "A" "1"
                 (sample_env four_readings (Returned status_ok_response))
                 fresh_world))
         = (requests_sent fresh_world ++ [req1])%list
       /\ requests_sent
            (snd (send_call_transcript "second" "B" "2"
                    (sample_env four_readings (Returned status_ok_response))
                    (snd (send_call_transcript "first" "A" "1"
                            (sample_env four_readings (Returned status_ok_response))
                            fresh_world))))
          = (requests_sent
               (snd (send_call_transcript "first" "A" "1"
                       (sample_env four_readings (Returned status_ok_response))
                       fresh_world))
             ++ [req2])%list
       /\ dict_get "id" (json req1) = Some (PyStr ident)
       /\ dict_get "id" (json req2) = Some (PyStr ident).
Proof.
  split; [by_computation | ]. split; [by_computation | ].
  apply C8_same_second_same_id; by_computation.
Defined.

(** C9.  The [timestamp] and the [id] of one payload come from two separate
    clock readings, the first and the second of the run.  When the second
    reading lies in a later whole second than the first, the second that the
    [timestamp] denotes and the number in the [id] differ.  (The clock is
    assumed in range, see [clock_ok].) *)
Theorem C9_id_and_timestamp_may_disagree (env : Env) (w : World)
  (transcript caller_name caller_phone : string) :
  clock_ok env w ->
  epoch_second (reading env w 0) < epoch_second (reading env w 1) ->
  clock_reads (snd (send_call_transcript transcript caller_name caller_phone env w))
    = (clock_reads w + 2)%nat
  /\ exists req stamp v seconds,
       requests_sent (snd (send_call_transcript transcript caller_name caller_phone env w))
         = (requests_sent w ++ [req])%list
       /\ dict_get "timestamp" (json req) = Some (PyStr stamp)
       /\ Iso8601.parse stamp = Some v
       /\ Iso8601.instant v = reading env w 0
       /\ dict_get "id" (json req) = Some (PyStr ("call_" ++ str_int seconds))
       /\ seconds = epoch_second (reading env w 1)
       /\ epoch_second (Iso8601.instant v) <> seconds.
Proof.
  intros H Hlt.
  destruct (run_refines env w transcript caller_name caller_phone H)
    as (d0 & W0 & Z0 & T0 & E).
  cbv zeta in E. rewrite E. cbn [snd requests_sent clock_reads].
  split; [lia | ].
  assert (Ei : Iso8601.instant (iso_of_datetime d0 19800) = reading env w 0)
    by (rewrite instant_of_datetime, T0; lia).
  eexists. exists (isoformat d0), (iso_of_datetime d0 19800).
  exists (epoch_second (reading env w 1)).
  split; [reflexivity | ]. split; [reflexivity | ].
  split; [now apply isoformat_ist_parses | ].
  split; [exact Ei | ]. split; [reflexivity | ]. split; [reflexivity | ].
  rewrite Ei. lia.
Qed.

(** Readings one microsecond apart around the start of a second: the
    [timestamp] shows second 20 and the [id] counts the next second. *)
Lemma C9_witness_straddling_readings :
  clock_ok (sample_env straddling_readings (Returned status_ok_response)) fresh_world
  /\ epoch_second 1730000000999999 < epoch_second 1730000001000000
  /\ (clock_reads
        (snd (send_call_transcript "hello" "Arjun Kumar" "+91-9876543210"
                (sample_env straddling_readings (Returned status_ok_response))
                fresh_world))
      = 2%nat
      /\ exists req stamp v seconds,
           requests_sent
             (snd (send_call_transcript "hello" "Arjun Kumar" "+91-9876543210"
                     (sample_env straddling_readings (Returned status_ok_response))
                     fresh_world))
             = (requests_sent fresh_world ++ [req])%list
           /\ dict_get "timestamp" (json req) = Some (PyStr stamp)
           /\ Iso8601.parse stamp = Some v
           /\ Iso8601.instant v = 1730000000999999
           /\ dict_get "id" (json req) = Some (PyStr ("call_" ++ str_int seconds))
           /\ seconds = 1730000001
           /\ epoch_second (Iso8601.instant v) <> seconds)
  /\ requests_sent
       (snd (send_call_transcript "hello" "Arjun Kumar" "+91-9876543210"
               (sample_env straddling_readings (Returned status_ok_response))
               fresh_world))
     = [ webhook_request "call_1730000001" "2024-10-27T09:03:20.999999+05:30"
           "hello" "Arjun Kumar" "+91-9876543210" ].
Proof.
  split; [by_computation | ]. split; [by_computation | ].
  split; [ | vm_compute; reflexivity].
  apply (C9_id_and_timestamp_may_disagree
           (sample_env straddling_readings (Returned status_ok_response))
           fresh_world);
    by_computation.
Defined.

(** C10.  For a response with status 200 whose body does not decode as JSON
    ([response.json()] raises), the success line is printed and the line with
    the decoded body is not: what follows depends on the error alone.  If it
    is a [RequestException] the handler prints it and the run returns
    normally; otherwise nothing more is printed and the error leaves the
    function.  (The clock is assumed in range, see [clock_ok].) *)
Theorem C10_status_200_body_not_json (env : Env) (w : World)
  (transcript caller_name caller_phone : string) (resp : Response) (e : exn) :
  clock_ok env w ->
  answered env w transcript caller_name caller_phone (Returned resp) ->
  status_code resp = 200 ->
  json_body resp = Raised e ->
  stdout (snd (send_call_transcript transcript caller_name caller_phone env w))
  = stdout w ++ "Call transcript sent successfully!" ++ newline
    ++ (if is_RequestException (exc_type e)
        then "Error sending request: " ++ exc_str e ++ newline
        else "")
  /\ fst (send_call_transcript transcript caller_name caller_phone env w)
     = (if is_RequestException (exc_type e) then Returned tt else Raised e).
Proof.
  intros H Ht Hs Hj.
  destruct (run_refines env w transcript caller_name caller_phone H)
    as (d0 & _ & _ & _ & E).
  cbv zeta in E.
  rewrite (Ht _ (f_equal (fun r => requests_sent (snd r)) E)) in E.
  rewrite E. unfold reaction. rewrite Hs, Hj.
  change (200 =? 200) with true. cbv iota.
  destruct (is_RequestException (exc_type e)); cbn [fst snd stdout];
    split; reflexivity.
Qed.

(** The body [OK] under the two behaviours of [response.json()]: raising
    [json.JSONDecodeError], which leaves the function, and raising
    [requests.exceptions.JSONDecodeError], which the handler prints. *)
Lemma C10_witness_both_decoders :
  clock_ok (sample_env sample_readings (Returned (not_json_response JSONDecodeError)))
    fresh_world
  /\ status_code (not_json_response JSONDecodeError) = 200
  /\ (stdout (snd (send_call_transcript "hello" "Arjun Kumar" "+91-9876543210"
                     (sample_env sample_readings
                        (Returned (not_json_response JSONDecodeError)))
                     fresh_world))
      = "Call transcript sent successfully!" ++ newline
      /\ fst (send_call_transcript "hello" "Arjun Kumar" "+91-9876543210"
                (sample_env sample_readings
                   (Returned (not_json_response JSONDecodeError)))
                fresh_world)
         = Raised {| exc_type := JSONDecodeError;
                     exc_str := "Expecting value: line 1 column 1 (char 0)" |})
  /\ (stdout (snd (send_call_transcript "hello" "Arjun Kumar" "+91-9876543210"
                     (sample_env sample_readings
                        (Returned (not_json_response RequestsJSONDecodeError)))
                     fresh_world))
      = "Call transcript sent successfully!" ++ newline
        ++ "Error sending request: Expecting value: line 1 column 1 (char 0)"
        ++ newline
      /\ fst (send_call_transcript "hello" "Arjun Kumar" "+91-9876543210"
                (sample_env sample_readings
                   (Returned (not_json_response RequestsJSONDecodeError)))
                fresh_world)
         = Returned tt).
Proof.
  split; [by_computation | ]. split; [reflexivity | ]. split.
  - apply (C10_status_200_body_not_json
             (sample_env sample_readings
                (Returned (not_json_response JSONDecodeError)))
             fresh_world "hello" "Arjun Kumar" "+91-9876543210"
             (not_json_response JSONDecodeError)
             {| exc_type := JSONDecodeError;
                exc_str := "Expecting value: line 1 column 1 (char 0)" |}).
    + by_computation.
    + intros req _. reflexivity.
    + reflexivity.
    + reflexivity.
  - apply (C10_status_200_body_not_json
             (sample_env sample_readings
                (Returned (not_json_response RequestsJSONDecodeError)))
             fresh_world "hello" "Arjun Kumar" "+91-9876543210"
             (not_json_response RequestsJSONDecodeError)
             {| exc_type := RequestsJSONDecodeError;
                exc_str := "Expecting value: line 1 column 1 (char 0)" |}).
    + by_computation.
    + intros req _. reflexivity.
    + reflexivity.
    + reflexivity.
Defined.

End Claims.

(** ** Facts for the further properties *)

Section FurtherFacts.

(** A run without any assumption on the clock: it ends at the first
    [datetime.now] that fails, and otherwise issues its request and reacts
    to what the transport does with it. *)
Lemma run_general (env : Env) (w : World) (tr n p : string) :
  send_call_transcript tr n p env w =
  match fromtimestamp (local_offset env) (reading env w 0) (Some Asia_Kolkata) with
  | Raised e =>
      (Raised e,
       {| clock_reads := S (clock_reads w);
          requests_sent := requests_sent w;
          stdout := stdout w |})
  | Returned d0 =>
      match fromtimestamp (local_offset env) (reading env w 1) None with
      | Raised e =>
          (Raised e,
           {| clock_reads := S (S (clock_reads w));
              requests_sent := requests_sent w;
              stdout := stdout w |})
      | Returned d1 =>
          let req :=
            webhook_request
              ("call_" ++ str_int (int_of_seconds (timestamp (local_offset env) d1)))
              (isoformat d0) tr n p in
          let o := transport env (List.length (requests_sent w)) req in
          (snd (reaction o),
           {| clock_reads := S (S (clock_reads w));
              requests_sent := requests_sent w ++ [req];
              stdout := stdout w ++ fst (reaction o) |})
      end
  end.
Proof.
  rewrite reading_0, reading_1.
  unfold send_call_transcript, datetime_now, bind, time_time, datetime_timestamp,
    try_except, requests_post, response_json, lift, print.
  cbn [clock_reads requests_sent stdout].
  destruct (fromtimestamp (local_offset env) (wall_clock env (clock_reads w))
              (Some Asia_Kolkata)) as [d0 | e0]; [ | reflexivity].
  cbn [clock_reads requests_sent stdout].
  destruct (fromtimestamp (local_offset env) (wall_clock env (S (clock_reads w)))
              None) as [d1 | e1]; [ | reflexivity].
  cbn [clock_reads requests_sent stdout]. cbv zeta.
  fold (webhook_request
          ("call_" ++ str_int (int_of_seconds (timestamp (local_offset env) d1)))
          (isoformat d0) tr n p).
  destruct (transport env _ _) as [resp | e]; cbn [reaction].
  - destruct (status_code resp =? 200).
    + cbn [clock_reads requests_sent stdout].
      destruct (json_body resp) as [v | e].
      * cbn [fst snd clock_reads requests_sent stdout join_space].
        now rewrite !app_assoc_str.
      * destruct (is_RequestException (exc_type e));
          cbn [fst snd clock_reads requests_sent stdout join_space];
          now rewrite ?app_assoc_str.
    + cbn [fst snd clock_reads requests_sent stdout join_space].
      now rewrite !app_assoc_str.
  - destruct (is_RequestException (exc_type e));
      cbn [fst snd clock_reads requests_sent stdout join_space].
    + reflexivity.
    + now rewrite app_empty_r.
Qed.



(** [str] tells natural numbers apart. *)
Lemma str_int_injective (a b : Z) :
  0 <= a -> 0 <= b -> str_int a = str_int b -> a = b.
Proof.
  intros Ha Hb E. unfold str_int in E.
  destruct (Z.ltb_spec a 0); [lia | ]. destruct (Z.ltb_spec b 0); [lia | ].
  destruct (digits_reads a Ha) as [_ Va]. destruct (digits_reads b Hb) as [_ Vb].
  rewrite <- Va, <- Vb, E. reflexivity.
Qed.

Lemma length_fmt_d (w : nat) (x : Z) :
  0 <= x < 10 ^ Z.of_nat (S w) -> String.length (fmt_d (S w) x) = S w.
Proof. intros H. apply (fmt_d_fixed w x H). Qed.

(** The text of a well-formed [datetime] of the zone has 25 characters
    without a fraction of a second and 32 with one. *)
Lemma length_isoformat_ist (d : datetime) :
  wf_datetime d -> tz d = Some Asia_Kolkata ->
  String.length (isoformat d) = if microsecond d =? 0 then 25%nat else 32%nat.
Proof.
  intros (Hy & Hm & Hd & Hh & Hmi & Hs & Hus) Hz.
  pose proof (days_in_month_le_31 (year d) (month d)) as H31.
  unfold isoformat, _format_time. rewrite Hz.
  change (_format_offset (option_map utcoffset (Some Asia_Kolkata))) with "+05:30".
  rewrite !length_app.
  rewrite (length_fmt_d 3) by (change (10 ^ Z.of_nat 4) with 10000; lia).
  rewrite !(length_fmt_d 1) by (change (10 ^ Z.of_nat 2) with 100; lia).
  destruct (Z.eqb_spec (microsecond d) 0) as [E0 | Hne]; [reflexivity | ].
  rewrite length_app.
  rewrite (length_fmt_d 5) by (change (10 ^ Z.of_nat 6) with 1000000; lia).
  reflexivity.
Qed.

(** The time of day in the fields of a zone-aware [datetime], from the POSIX
    time it stands for: the zone moves the minutes by 330 and leaves seconds
    and microseconds alone. *)
Lemma ist_fields_of_reading (d : datetime) (t : Z) :
  wf_datetime d ->
  to_epoch_us d = t + 19800 * US_PER_SECOND ->
  microsecond d = t mod 1000000
  /\ second d = (t / 1000000) mod 60
  /\ hour d * 60 + minute d = (t / 1000000 / 60 + 330) mod 1440.
Proof.
  intros (_ & _ & _ & Hh & Hmi & Hs & Hus).
  unfold to_epoch_us, US_PER_SECOND.
  generalize (Calendar._ymd2ord (year d) (month d) (day d) - Calendar.EPOCH_ORDINAL).
  intros k E.
  repeat split; Z.div_mod_to_equations; lia.
Qed.

End FurtherFacts.

(** ** Further properties *)

Section Further.

Ltac by_running := vm_compute; repeat split; (reflexivity || discriminate).

(** X1.  An exception of [requests.post] that is not a [RequestException]
    is not caught: it reaches the caller unchanged, after the request was
    issued and without anything being printed.  (The clock is assumed in
    range, see [clock_ok].) *)
Theorem X1_foreign_transport_error_propagates (env : Env) (w : World)
  (transcript caller_name caller_phone : string) (e : exn) :
  clock_ok env w ->
  answered env w transcript caller_name caller_phone (Raised e) ->
  is_RequestException (exc_type e) = false ->
  fst (send_call_transcript transcript caller_name caller_phone env w) = Raised e
  /\ stdout (snd (send_call_transcript transcript caller_name caller_phone env w))
     = stdout w
  /\ exists req,
       requests_sent (snd (send_call_transcript transcript caller_name caller_phone env w))
       = (requests_sent w ++ [req])%list.
Proof.
  intros H Ht He.
  destruct (run_refines env w transcript caller_name caller_phone H)
    as (d0 & _ & _ & _ & E).
  cbv zeta in E.
  rewrite (Ht _ (f_equal (fun r => requests_sent (snd r)) E)) in E.
  rewrite E. cbn [reaction]. rewrite He. cbn [fst snd stdout requests_sent].
  split; [reflexivity | ]. split; [apply app_empty_r | ].
  eexists. reflexivity.
Qed.

Lemma X1_witness_interrupt :
  clock_ok
    (sample_env sample_readings
       (Raised {| exc_type := KeyboardInterrupt; exc_str := "" |}))
    fresh_world
  /\ is_RequestException KeyboardInterrupt = false
  /\ fst (send_call_transcript "hello" "Arjun Kumar" "+91-9876543210"
            (sample_env sample_readings
               (Raised {| exc_type := KeyboardInterrupt; exc_str := "" |}))
            fresh_world)
     = Raised {| exc_type := KeyboardInterrupt; exc_str := "" |}
  /\ stdout (snd (send_call_transcript "hello" "Arjun Kumar" "+91-9876543210"
                    (sample_env sample_readings
                       (Raised {| exc_type := KeyboardInterrupt; exc_str := "" |}))
                    fresh_world))
     = ""
  /\ exists req,
       requests_sent
         (snd (send_call_transcript "hello" "Arjun Kumar" "+91-9876543210"
                 (sample_env sample_readings
                    (Raised {| exc_type := KeyboardInterrupt; exc_str := "" |}))
                 fresh_world))
       = ([] ++ [req])%list.
Proof.
  split; [by_running | ]. split; [reflexivity | ].
  apply (X1_foreign_transport_error_propagates
           (sample_env sample_readings
              (Raised {| exc_type := KeyboardInterrupt; exc_str := "" |}))
           fresh_world "hello" "Arjun Kumar" "+91-9876543210"
           {| exc_type := KeyboardInterrupt; exc_str := "" |}).
  - by_running.
  - intros req _. reflexivity.
  - reflexivity.
Defined.



(** X3.  The two [datetime.now] calls are made before the [try]: when one of
    them fails (a clock reading that [datetime] cannot hold), its exception
    leaves the function, no request is issued and nothing is printed. *)
Theorem X3_clock_failure_sends_nothing (env : Env) (w : World)
  (transcript caller_name caller_phone : string) (e : exn) :
  clock_failure env w = Some e ->
  fst (send_call_transcript transcript caller_name caller_phone env w) = Raised e
  /\ requests_sent (snd (send_call_transcript transcript caller_name caller_phone env w))
     = requests_sent w
  /\ stdout (snd (send_call_transcript transcript caller_name caller_phone env w))
     = stdout w.
Proof.
  intros H. rewrite run_general. unfold clock_failure in H.
  destruct (fromtimestamp (local_offset env) (reading env w 0) (Some Asia_Kolkata))
    as [d0 | e0].
  - destruct (fromtimestamp (local_offset env) (reading env w 1) None)
      as [d1 | e1]; [discriminate | ].
    injection H as <-. repeat split.
  - injection H as <-. repeat split.
Qed.

Lemma X3_witness_year_10000 :
  clock_failure (sample_env late_readings (Returned status_ok_response)) fresh_world
  = Some {| exc_type := ValueError; exc_str := "year is out of range" |}
  /\ fst (send_call_transcript "hello" "Arjun Kumar" "+91-9876543210"
            (sample_env late_readings (Returned status_ok_response))
            fresh_world)
     = Raised {| exc_type := ValueError; exc_str := "year is out of range" |}
  /\ requests_sent
       (snd (send_call_transcript "hello" "Arjun Kumar" "+91-9876543210"
               (sample_env late_readings (Returned status_ok_response))
               fresh_world))
     = []
  /\ stdout
       (snd (send_call_transcript "hello" "Arjun Kumar" "+91-9876543210"
               (sample_env late_readings (Returned status_ok_response))
               fresh_world))
     = "".
Proof.
  split; [vm_compute; reflexivity | ].
  apply (X3_clock_failure_sends_nothing
           (sample_env late_readings (Returned status_ok_response)) fresh_world).
  vm_compute. reflexivity.
Defined.


(** X5.  The function itself never echoes its arguments: when the transport's
    outcome does not depend on what the request holds, two runs from the same
    state with different transcripts and caller data print the same text and
    end the same way. *)
Theorem X5_console_independent_of_arguments (env : Env) (w : World)
  (transcript1 name1 phone1 transcript2 name2 phone2 : string) :
  request_blind env w ->
  fst (send_call_transcript transcript1 name1 phone1 env w)
  = fst (send_call_transcript transcript2 name2 phone2 env w)
  /\ stdout (snd (send_call_transcript transcript1 name1 phone1 env w))
     = stdout (snd (send_call_transcript transcript2 name2 phone2 env w)).
Proof.
  intros Hb. rewrite !run_general.
  destruct (fromtimestamp (local_offset env) (reading env w 0) (Some Asia_Kolkata))
    as [d0 | e0]; [ | split; reflexivity].
  destruct (fromtimestamp (local_offset env) (reading env w 1) None)
    as [d1 | e1]; [ | split; reflexivity].
  cbv zeta. cbn [fst snd stdout].
  rewrite (Hb (webhook_request _ _ transcript1 name1 phone1)
              (webhook_request
                 ("call_" ++ str_int (int_of_seconds (timestamp (local_offset env) d1)))
                 (isoformat d0) transcript2 name2 phone2)).
  split; reflexivity.
Qed.

Lemma X5_witness_two_callers :
  request_blind (sample_env sample_readings (Returned internal_error_response))
    fresh_world
  /\ fst (send_call_transcript "a private matter" "Arjun Kumar" "+91-9876543210"
            (sample_env sample_readings (Returned internal_error_response))
            fresh_world)
     = fst (send_call_transcript "" "B" "0"
              (sample_env sample_readings (Returned internal_error_response))
              fresh_world)
  /\ stdout (snd (send_call_transcript "a private matter" "Arjun Kumar" "+91-9876543210"
                    (sample_env sample_readings (Returned internal_error_response))
                    fresh_world))
     = stdout (snd (send_call_transcript "" "B" "0"
                      (sample_env sample_readings (Returned internal_error_response))
                      fresh_world)).
Proof.
  split; [intros r1 r2; reflexivity | ].
  apply X5_console_independent_of_arguments.
  intros r1 r2. reflexivity.
Defined.

(** X6.  The [id] tells seconds apart: two runs whose second clock readings
    fall in different whole seconds since the epoch put different [id]s in
    their payloads.  (Both clocks are assumed in range, see [clock_ok].) *)
Theorem X6_different_second_different_id (env1 env2 : Env) (w1 w2 : World)
  (transcript1 name1 phone1 transcript2 name2 phone2 : string) :
  clock_ok env1 w1 ->
  clock_ok env2 w2 ->
  epoch_second (reading env1 w1 1) <> epoch_second (reading env2 w2 1) ->
  exists req1 req2 ident1 ident2,
    requests_sent (snd (send_call_transcript transcript1 name1 phone1 env1 w1))
      = (requests_sent w1 ++ [req1])%list
    /\ requests_sent (snd (send_call_transcript transcript2 name2 phone2 env2 w2))
      = (requests_sent w2 ++ [req2])%list
    /\ dict_get "id" (json req1) = Some (PyStr ident1)
    /\ dict_get "id" (json req2) = Some (PyStr ident2)
    /\ ident1 <> ident2.
Proof.
  intros H1 H2 Hs.
  destruct (run_refines env1 w1 transcript1 name1 phone1 H1)
    as (d1 & _ & _ & _ & E1).
  destruct (run_refines env2 w2 transcript2 name2 phone2 H2)
    as (d2 & _ & _ & _ & E2).
  cbv zeta in E1, E2. rewrite E1, E2. cbn [snd requests_sent].
  eexists. eexists. eexists. eexists.
  split; [reflexivity | ]. split; [reflexivity | ].
  split; [reflexivity | ]. split; [reflexivity | ].
  intros E. apply Hs.
  apply (f_equal (drop 5)) in E.
  rewrite !(drop_app_exact "call_" _ 5 eq_refl) in E.
  destruct H1 as (_ & _ & R1). destruct H2 as (_ & _ & R2).
  apply str_int_injective; [ | | exact E];
    unfold epoch_second, US_PER_SECOND; apply Z.div_pos; (apply R1 || apply R2 || lia).
Qed.

Lemma X6_witness_seven_seconds_apart :
  clock_ok (sample_env sample_readings (Returned status_ok_response)) fresh_world
  /\ clock_ok (sample_env distant_readings (Returned status_ok_response)) fresh_world
  /\ epoch_second 1730000000123999 <> epoch_second 1730000007000000
  /\ exists req1 req2 ident1 ident2,
       requests_sent
         (snd (send_call_transcript "hello" "A" "1"
                 (sample_env sample_readings (Returned status_ok_response))
                 fresh_world))
         = (requests_sent fresh_world ++ [req1])%list
       /\ requests_sent
            (snd (send_call_transcript "hello" "A" "1"
                    (sample_env distant_readings (Returned status_ok_response))
                    fresh_world))
          = (requests_sent fresh_world ++ [req2])%list
       /\ dict_get "id" (json req1) = Some (PyStr ident1)
       /\ dict_get "id" (json req2) = Some (PyStr ident2)
       /\ ident1 <> ident2.
Proof.
  split; [by_running | ]. split; [by_running | ]. split; [by_running | ].
  apply X6_different_second_different_id; by_running.
Defined.

(** X7.  The [timestamp] has one of two shapes: when the first clock reading
    is a whole number of seconds, [isoformat] leaves the fraction out and the
    text has 25 characters; otherwise it has the six digits of the
    microseconds and 32 characters.  (The clock is assumed in range, see
    [clock_ok].) *)
Theorem X7_timestamp_has_25_or_32_characters (env : Env) (w : World)
  (transcript caller_name caller_phone : string) :
  clock_ok env w ->
  exists req stamp,
    requests_sent (snd (send_call_transcript transcript caller_name caller_phone env w))
      = (requests_sent w ++ [req])%list
    /\ dict_get "timestamp" (json req) = Some (PyStr stamp)
    /\ String.length stamp
       = if reading env w 0 mod 1000000 =? 0 then 25%nat else 32%nat.
Proof.
  intros H.
  destruct (run_refines env w transcript caller_name caller_phone H)
    as (d0 & W0 & Z0 & T0 & E).
  cbv zeta in E. rewrite E. cbn [snd requests_sent].
  destruct (ist_fields_of_reading d0 _ W0 T0) as (Eus & _).
  eexists. exists (isoformat d0).
  split; [reflexivity | ]. split; [reflexivity | ].
  rewrite (length_isoformat_ist d0 W0 Z0), Eus. reflexivity.
Qed.

Lemma X7_witness_both_shapes :
  clock_ok (sample_env whole_second_readings (Returned status_ok_response)) fresh_world
  /\ (exists req stamp,
        requests_sent
          (snd (send_call_transcript "hello" "A" "1"
                  (sample_env whole_second_readings (Returned status_ok_response))
                  fresh_world))
          = (requests_sent fresh_world ++ [req])%list
        /\ dict_get "timestamp" (json req) = Some (PyStr stamp)
        /\ String.length stamp = 25%nat)
  /\ (exists req stamp,
        requests_sent
          (snd (send_call_transcript "hello" "A" "1"
                  (sample_env sample_readings (Returned status_ok_response))
                  fresh_world))
          = (requests_sent fresh_world ++ [req])%list
        /\ dict_get "timestamp" (json req) = Some (PyStr stamp)
        /\ String.length stamp = 32%nat)
  /\ requests_sent
       (snd (send_call_transcript "hello" "A" "1"
               (sample_env whole_second_readings (Returned status_ok_response))
               fresh_world))
     = [ webhook_request "call_1730000000" "2024-10-27T09:03:20+05:30"
           "hello" "A" "1" ].
Proof.
  split; [by_running | ]. split; [ | split; [ | vm_compute; reflexivity]].
  - apply (X7_timestamp_has_25_or_32_characters
             (sample_env whole_second_readings (Returned status_ok_response))
             fresh_world).
    by_running.
  - apply (X7_timestamp_has_25_or_32_characters
             (sample_env sample_readings (Returned status_ok_response))
             fresh_world).
    by_running.
Defined.

(** X8.  The [timestamp] shows the wall-clock time in Kolkata of the first
    clock reading: its microseconds and its seconds are those of the reading,
    and its hour and minute are the UTC minute of the day moved on by 330
    minutes, around midnight if need be.  (The clock is assumed in range, see
    [clock_ok].) *)
Theorem X8_timestamp_shows_kolkata_time (env : Env) (w : World)
  (transcript caller_name caller_phone : string) :
  clock_ok env w ->
  exists req stamp v,
    requests_sent (snd (send_call_transcript transcript caller_name caller_phone env w))
      = (requests_sent w ++ [req])%list
    /\ dict_get "timestamp" (json req) = Some (PyStr stamp)
    /\ Iso8601.parse stamp = Some v
    /\ Iso8601.iso_microsecond v = reading env w 0 mod 1000000
    /\ Iso8601.iso_second v = epoch_second (reading env w 0) mod 60
    /\ Iso8601.iso_hour v * 60 + Iso8601.iso_minute v
       = (epoch_second (reading env w 0) / 60 + 330) mod 1440.
Proof.
  intros H.
  destruct (run_refines env w transcript caller_name caller_phone H)
    as (d0 & W0 & Z0 & T0 & E).
  cbv zeta in E. rewrite E. cbn [snd requests_sent].
  destruct (ist_fields_of_reading d0 _ W0 T0) as (Eus & Es & Em).
  eexists. exists (isoformat d0), (iso_of_datetime d0 19800).
  split; [reflexivity | ]. split; [reflexivity | ].
  split; [now apply isoformat_ist_parses | ].
  unfold epoch_second, US_PER_SECOND.
  cbn [iso_of_datetime Iso8601.iso_microsecond Iso8601.iso_second
       Iso8601.iso_hour Iso8601.iso_minute].
  repeat split; assumption.
Qed.

Lemma X8_witness_past_midnight :
  clock_ok (sample_env [1730055600000001; 1730055600000002]
              (Returned status_ok_response)) fresh_world
  /\ (exists req stamp v,
        requests_sent
          (snd (send_call_transcript "hello" "A" "1"
                  (sample_env [1730055600000001; 1730055600000002]
                     (Returned status_ok_response))
                  fresh_world))
          = (requests_sent fresh_world ++ [req])%list
        /\ dict_get "timestamp" (json req) = Some (PyStr stamp)
        /\ Iso8601.parse stamp = Some v
        /\ Iso8601.iso_microsecond v = 1
        /\ Iso8601.iso_second v = 0
        /\ Iso8601.iso_hour v * 60 + Iso8601.iso_minute v = 30)
  /\ requests_sent
       (snd (send_call_transcript "hello" "A" "1"
               (sample_env [1730055600000001; 1730055600000002]
                  (Returned status_ok_response))
               fresh_world))
     = [ webhook_request "call_1730055600" "2024-10-28T00:30:00.000001+05:30"
           "hello" "A" "1" ].
Proof.
  split; [by_running | ]. split; [ | vm_compute; reflexivity].
  apply (X8_timestamp_shows_kolkata_time
           (sample_env [1730055600000001; 1730055600000002]
              (Returned status_ok_response))
           fresh_world).
  by_running.
Defined.

(** X9.  When the two clock readings of a run fall in the same whole second,
    [id] and [timestamp] agree: the number in the [id] is the second that the
    [timestamp] denotes, and its remainder by 60 is the seconds field that
    the [timestamp] shows.  (The clock is assumed in range, see
    [clock_ok].) *)
Theorem X9_same_second_fields_agree (env : Env) (w : World)
  (transcript caller_name caller_phone : string) :
  clock_ok env w ->
  epoch_second (reading env w 0) = epoch_second (reading env w 1) ->
  exists req stamp v seconds,
    requests_sent (snd (send_call_transcript transcript caller_name caller_phone env w))
      = (requests_sent w ++ [req])%list
    /\ dict_get "timestamp" (json req) = Some (PyStr stamp)
    /\ Iso8601.parse stamp = Some v
    /\ dict_get "id" (json req) = Some (PyStr ("call_" ++ str_int seconds))
    /\ epoch_second (Iso8601.instant v) = seconds
    /\ Iso8601.iso_second v = seconds mod 60.
Proof.
  intros H Hs.
  destruct (run_refines env w transcript caller_name caller_phone H)
    as (d0 & W0 & Z0 & T0 & E).
  cbv zeta in E. rewrite E. cbn [snd requests_sent].
  destruct (ist_fields_of_reading d0 _ W0 T0) as (_ & Es & _).
  eexists. exists (isoformat d0), (iso_of_datetime d0 19800).
  exists (epoch_second (reading env w 1)).
  split; [reflexivity | ]. split; [reflexivity | ].
  split; [now apply isoformat_ist_parses | ].
  split; [reflexivity | ].
  split.
  - rewrite instant_of_datetime, T0, <- Hs. f_equal. lia.
  - rewrite <- Hs. exact Es.
Qed.

Lemma X9_witness_within_one_second :
  clock_ok (sample_env sample_readings (Returned status_ok_response)) fresh_world
  /\ epoch_second 1730000000123456 = epoch_second 1730000000123999
  /\ exists req stamp v seconds,
       requests_sent
         (snd (send_call_transcript "hello" "A" "1"
                 (sample_env sample_readings (Returned status_ok_response))
                 fresh_world))
         = (requests_sent fresh_world ++ [req])%list
       /\ dict_get "timestamp" (json req) = Some (PyStr stamp)
       /\ Iso8601.parse stamp = Some v
       /\ dict_get "id" (json req) = Some (PyStr ("call_" ++ str_int seconds))
       /\ epoch_second (Iso8601.instant v) = seconds
       /\ Iso8601.iso_second v = seconds mod 60.
Proof.
  split; [by_running | ]. split; [by_running | ].
  apply (X9_same_second_fields_agree
           (sample_env sample_readings (Returned status_ok_response))
           fresh_world);
    by_running.
Defined.

(** X10.  Loaded under any name but [__main__] the module does nothing: no
    clock reading, no request, no output.  Run as a script it makes the one
    example call, and so issues exactly one request, whose transcript is the
    three-line literal with its line breaks, the space before each of them
    and the four spaces of indentation after them (190 characters), for the
    caller Arjun Kumar.  (For the script the clock is assumed in range, see
    [clock_ok].) *)
Theorem X10_script_makes_the_example_call (env : Env) (w : World) :
  clock_ok env w ->
  (forall name, name <> "__main__" -> script name env w = (Returned tt, w))
  /\ (exists ident stamp,
        requests_sent (snd (script "__main__" env w))
        = (requests_sent w
           ++ [ webhook_request ident stamp example_transcript
                  "Arjun Kumar" "+91-9876543210" ])%list)
  /\ String.length example_transcript = 190%nat
  /\ contains (" " ++ newline ++ "    I've been") example_transcript = true
  /\ contains (" " ++ newline ++ "    My connection") example_transcript = true.
Proof.
  intros H. split; [ | split].
  - intros name Hn. unfold script.
    destruct (String.eqb_spec name "__main__") as [E | _]; [contradiction | ].
    reflexivity.
  - change (script "__main__" env w)
      with (send_call_transcript example_transcript "Arjun Kumar" "+91-9876543210"
              env w).
    destruct (run_refines env w example_transcript "Arjun Kumar" "+91-9876543210" H)
      as (d0 & _ & _ & _ & E).
    cbv zeta in E. rewrite E. cbn [snd requests_sent].
    eexists. eexists. reflexivity.
  - repeat split; vm_compute; reflexivity.
Qed.

Lemma X10_witness_script_run :
  clock_ok (sample_env sample_readings (Returned status_ok_response)) fresh_world
  /\ (forall name, name <> "__main__" ->
      script name (sample_env sample_readings (Returned status_ok_response))
        fresh_world
      = (Returned tt, fresh_world))
  /\ (exists ident stamp,
        requests_sent
          (snd (script "__main__"
                  (sample_env sample_readings (Returned status_ok_response))
                  fresh_world))
        = (requests_sent fresh_world
           ++ [ webhook_request ident stamp example_transcript
                  "Arjun Kumar" "+91-9876543210" ])%list)
  /\ String.length example_transcript = 190%nat
  /\ contains (" " ++ newline ++ "    I've been") example_transcript = true
  /\ contains (" " ++ newline ++ "    My connection") example_transcript = true.
Proof.
  split; [by_running | ].
  apply X10_script_makes_the_example_call. by_running.
Defined.

End Further.
